(** * GIAS data fetcher: a shallow embedding of [src/fetch-data.ts]

    The development follows the layers of the program:
    - [Text]: the string primitives of the JavaScript runtime that the
      validator uses ([includes], [split], [slice], [some]); a string is a
      sequence of characters that are only ever compared for equality;
    - [Validator]: [validateCSVContent], [isHtmlContent], [isValidCsv];
    - [Num]: JavaScript numbers, as IEEE 754 binary64 values;
    - [SizeCheck]: [checkFileSizeChange];
    - [Fetcher]: the file system, the transport, [downloadFile] and
      [fetchData] in a state-and-exception monad;
    - [FetcherSpec], [Samples]: the notions the statements use, and
      concrete environments to run the program in.
    The modules after these hold the lemmas and theorems, layer by layer. *)

From Stdlib Require Import ZArith Bool List Ascii String Lia.
From Stdlib Require Import Floats.SpecFloat.
From stdpp Require Import base tactics option list gmap strings.

Local Open Scope string_scope.

#[local] Arguments Ascii.eqb : simpl never.

(** ** JavaScript string primitives *)

Module Text.

(** [s.startsWith(pat)], the test [includes] repeats at every offset. *)
Fixpoint startsWith (s pat : string) : bool :=
  match pat, s with
  | EmptyString, _ => true
  | String _ _, EmptyString => false
  | String p pat', String c s' => if Ascii.eqb p c then startsWith s' pat' else false
  end.

(** [s.includes(pat)]: some offset of [s] starts with [pat]. *)
Fixpoint includes (s pat : string) : bool :=
  if startsWith s pat then true
  else match s with
       | EmptyString => false
       | String _ s' => includes s' pat
       end.

(** The line feed, the separator of [content.split('\n')]. *)
Definition LF : ascii := "010"%char.

(** [s.split('\n')]: the pieces between line feeds; never empty, the
    empty string gives one empty piece. *)
Fixpoint split_lines (s : string) : list string :=
  match s with
  | EmptyString => [EmptyString]
  | String c s' =>
      if Ascii.eqb c LF then EmptyString :: split_lines s'
      else match split_lines s' with
           | l :: ls => String c l :: ls
           | [] => [String c EmptyString]
           end
  end.

(** [arr.slice(0, n)]. *)
Definition slice0 {A} (n : nat) (arr : list A) : list A := firstn n arr.

(** [arr.some(p)]. *)
Definition some {A} (p : A -> bool) (arr : list A) : bool := existsb p arr.

(** [arr.join('\n')], the inverse of [split_lines]. *)
Fixpoint join_lines (ls : list string) : string :=
  match ls with
  | [] => EmptyString
  | [l] => l
  | l :: ls' => l +:+ String LF (join_lines ls')
  end.

(** Mathematical reading of "pat is a substring of s". *)
Definition substring_of (pat s : string) : Prop :=
  exists pre post, s = pre +:+ pat +:+ post.

(** A string holds the character [c]. *)
Definition has_char (c : ascii) (s : string) : Prop :=
  exists pre post, s = pre +:+ String c post.

End Text.

(** ** Content validator *)

Module Validator.
Import Text.

Record ValidationResult := mkValidation {
  isValid : bool;
  reason : option string
}.

Definition htmlPatterns : list string :=
  ["<!DOCTYPE"; "<html"; "<body"; "<head"].

Definition validateCSVContent (content : string) : ValidationResult :=
  if some (fun pattern => includes content pattern) htmlPatterns then
    mkValidation false (Some "Content contains HTML markup")
  else
    let lines := slice0 3 (split_lines content) in
    if negb (some (fun line => includes line ",") lines) then
      mkValidation false (Some "Content lacks comma separators")
    else mkValidation true None.

Definition isHtmlContent (content : string) : bool :=
  some (fun pattern => includes content pattern) htmlPatterns.

Definition isValidCsv (content : string) : bool :=
  let lines := slice0 3 (split_lines content) in
  some (fun line => includes line ",") lines.

(** The two rules of the specification, read as propositions. *)
Definition has_html_marker (content : string) : Prop :=
  substring_of "<!DOCTYPE" content \/ substring_of "<html" content \/
  substring_of "<body" content \/ substring_of "<head" content.

Definition comma_in_first_lines (content : string) : Prop :=
  exists line, In line (slice0 3 (split_lines content)) /\ has_char "," line.

End Validator.

(** ** JavaScript numbers

    A [number] is an IEEE 754 binary64 value; the arithmetic is the
    round-to-nearest-even arithmetic of [SpecFloat] at precision 53. *)

Module Num.

Definition prec : Z := 53.
Definition emax : Z := 1024.

Definition number : Type := spec_float.

(** The number written by an integer literal, or held by an integer-valued
    field such as a byte count. *)
Definition of_Z (z : Z) : number := binary_normalize prec emax z 0 false.

Definition sub (x y : number) : number := SFsub prec emax x y.
Definition div (x y : number) : number := SFdiv prec emax x y.
Definition mul (x y : number) : number := SFmul prec emax x y.

(** [Math.abs]. *)
Definition abs (x : number) : number := SFabs x.

(** [x === y] on numbers: [NaN] equals nothing, [+0] equals [-0]. *)
Definition strict_eq (x y : number) : bool := SFeqb x y.

(** [x > y]. *)
Definition gt (x y : number) : bool := SFltb y x.

Definition is_nan (x : number) : bool :=
  match x with S754_nan => true | _ => false end.

End Num.

(** ** Size-change check *)

Module SizeCheck.
Import Num.

Record SizeChange := mkSizeChange {
  changed : bool;
  warning : option string
}.

Section Formatting.

(** Number formatting belongs to the JavaScript runtime:
    [toFixed x digits] is [x.toFixed(digits)] and [numberToString x] is the
    text a template literal substitutes for the number [x]. *)
Variable toFixed : number -> nat -> string.
Variable numberToString : number -> string.

Definition sizeDifferencePercent (newSize oldSize : number) : number :=
  abs (mul (div (sub newSize oldSize) oldSize) (of_Z 100)).

Definition changeDirection (newSize oldSize : number) : string :=
  if gt newSize oldSize then "increased" else "decreased".

Definition checkFileSizeChange
    (newSize oldSize threshold : number) (fileName : string) : SizeChange :=
  if strict_eq oldSize (of_Z 0) then mkSizeChange false None
  else
    let sizeDifferencePercent := sizeDifferencePercent newSize oldSize in
    if gt sizeDifferencePercent threshold then
      let changeDirection := changeDirection newSize oldSize in
      let warning :=
        "WARNING: File " +:+ fileName +:+ " has " +:+ changeDirection +:+
        " in size by " +:+ toFixed sizeDifferencePercent 2 +:+
        "% (from " +:+ numberToString oldSize +:+ " to " +:+
        numberToString newSize +:+ " bytes)" in
      mkSizeChange true (Some warning)
    else mkSizeChange false None.

(** The percentage as the specification writes it, with the absolute value
    taken before the multiplication:
    [abs((newSize - oldSize) / oldSize) * 100]. *)
Definition percentDiff_spec (newSize oldSize : number) : number :=
  mul (abs (div (sub newSize oldSize) oldSize)) (of_Z 100).

(** The text of a warning carrying the direction label [direction]. *)
Definition warning_text
    (fileName direction : string) (percent oldSize newSize : number) : string :=
  "WARNING: File " +:+ fileName +:+ " has " +:+ direction +:+
  " in size by " +:+ toFixed percent 2 +:+
  "% (from " +:+ numberToString oldSize +:+ " to " +:+
  numberToString newSize +:+ " bytes)".

End Formatting.

End SizeCheck.

(** ** The fetcher: file system, transport, [downloadFile], [fetchData] *)

Module Fetcher.
Import Text Validator Num SizeCheck.

(** *** Thrown values and completions *)

(** What a [throw] or a rejected promise carries:
    - an [Error] instance with its [name] and [message], converted to text
      by [Error.prototype.toString];
    - a value that is not an [Error] instance, with the text its string
      conversion gives;
    - any other value: [conversion] is what [`${value}`] gives, a text or
      a throw (a Symbol and an object without prototype throw a
      [TypeError]); [errorMessage] is present when the value is an [Error]
      instance and is what [`${value.message}`] gives. *)
#[local] Unset Elimination Schemes.
Inductive Thrown :=
  | ErrorObject (name message : string)
  | OtherValue (text : string)
  | ExoticValue (conversion : string + Thrown)
                (errorMessage : option (string + Thrown)).
#[local] Set Elimination Schemes.

(** A Node file-system error such as [ENOENT]. *)
Definition fsError (code syscall path : string) : Thrown :=
  ErrorObject "Error" (code +:+ ": " +:+ syscall +:+ " '" +:+ path +:+ "'").

Inductive Completion (A : Type) :=
  | Normal (a : A)
  | Throw (e : Thrown).
Arguments Normal {A} a.
Arguments Throw {A} e.

(** [`${error}`]: [Error.prototype.toString] for error objects; the
    conversion of an exotic value may throw. *)
Definition thrownToString (error : Thrown) : Completion string :=
  match error with
  | ErrorObject name message =>
      Normal (if String.eqb name "" then message
              else if String.eqb message "" then name
              else name +:+ ": " +:+ message)
  | OtherValue text => Normal text
  | ExoticValue (inl text) _ => Normal text
  | ExoticValue (inr raised) _ => Throw raised
  end.

(** [error instanceof Error], and then [`${error.message}`]. *)
Definition errorMessageOf (error : Thrown) : option (Completion string) :=
  match error with
  | ErrorObject _ message => Some (Normal message)
  | OtherValue _ => None
  | ExoticValue _ None => None
  | ExoticValue _ (Some (inl message)) => Some (Normal message)
  | ExoticValue _ (Some (inr raised)) => Some (Throw raised)
  end.

(** The [TypeError] a template literal throws for a Symbol. *)
Definition symbolTypeError : Thrown :=
  ErrorObject "TypeError" "Cannot convert a Symbol value to a string".

(** A thrown Symbol. *)
Definition thrownSymbol : Thrown := ExoticValue (inr symbolTypeError) None.

(** *** The world *)

Inductive FsCall :=
  | CAccess (path : string)
  | CStat (path : string)
  | CWriteFile (path data : string)
  | CRename (oldPath newPath : string)
  | CUnlink (path : string)
  | CMkdir (path : string).

(** What the environment does to one file-system call: nothing, or make
    it fail with [e]; a failing [writeFile] may still leave [residue] in
    the file it was writing. *)
Inductive Fault :=
  | NoFault
  | Fail (e : Thrown) (residue : option string).

Inductive Level := LevelLog | LevelError.

Record World := mkWorld {
  files : gmap string string;               (* regular files and their text *)
  dirs : gset string;                       (* directories *)
  calls : list (FsCall * option Thrown);    (* fs calls so far, with the error thrown *)
  console : list (Level * string);          (* console output so far *)
  requests : nat                            (* transport calls so far *)
}.

Definition set_files (f : gmap string string) (w : World) : World :=
  mkWorld f (dirs w) (calls w) (console w) (requests w).

Definition set_dirs (d : gset string) (w : World) : World :=
  mkWorld (files w) d (calls w) (console w) (requests w).

Definition record_call (c : FsCall) (r : option Thrown) (w : World) : World :=
  mkWorld (files w) (dirs w) (calls w ++ [(c, r)])%list (console w) (requests w).

(** *** The monad of [async] functions: state and exceptions *)

Definition M (A : Type) : Type := World -> Completion A * World.

Definition ret {A} (a : A) : M A := fun w => (Normal a, w).

Definition throw {A} (e : Thrown) : M A := fun w => (Throw e, w).

Definition bind {A B} (m : M A) (k : A -> M B) : M B :=
  fun w =>
    match m w with
    | (Normal a, w') => k a w'
    | (Throw e, w') => (Throw e, w')
    end.

(** [try { m } catch (e) { handler e }]. *)
Definition tryCatch {A} (m : M A) (handler : Thrown -> M A) : M A :=
  fun w =>
    match m w with
    | (Normal a, w') => (Normal a, w')
    | (Throw e, w') => handler e w'
    end.

Notation "x <- m ;; k" := (bind m (fun x => k))
  (at level 100, m at next level, right associativity).
Notation "m ;;; k" := (bind m (fun _ => k))
  (at level 100, right associativity).

Definition console_log (message : string) : M unit :=
  fun w => (Normal tt,
            mkWorld (files w) (dirs w) (calls w)
                    (console w ++ [(LevelLog, message)])%list (requests w)).

Definition console_error (message : string) : M unit :=
  fun w => (Normal tt,
            mkWorld (files w) (dirs w) (calls w)
                    (console w ++ [(LevelError, message)])%list (requests w)).

(** *** The transport *)

Record Response := mkResponse {
  ok : bool;
  status : number;
  statusText : string;
  text : Completion string     (* what awaiting [response.text()] gives *)
}.

(** A transport answers a request for a URL; its answer may depend on how
    many requests came before. *)
Definition Transport : Type := string -> nat -> Completion Response.

Definition callTransport (fetchFn : Transport) (url : string) : M Response :=
  fun w => (fetchFn url (requests w),
            mkWorld (files w) (dirs w) (calls w) (console w) (S (requests w))).

(** Awaiting a promise that is already settled. *)
Definition await {A} (c : Completion A) : M A := fun w => (c, w).

(** Evaluating an expression that completes with [c] and touches nothing. *)
Definition evaluate {A} (c : Completion A) : M A := fun w => (c, w).

(** The JavaScript runtime and the Node library functions the program
    calls, and the faults the environment injects: [fault c n] is what
    happens to the call [c] when it is the [n]-th file-system call. *)
Class Environment := {
  toFixed : number -> nat -> string;          (* x.toFixed(digits) *)
  numberToString : number -> string;          (* `${x}` for a number x *)
  byteLength : string -> Z;                   (* bytes of the UTF-8 encoding *)
  basename : string -> string;                (* path.basename *)
  path_join : string -> string -> string;     (* path.join *)
  replace : string -> string -> string -> string;  (* s.replace(pattern, by) *)
  Date : Type;
  now : Date;                                 (* new Date() *)
  format : Date -> string -> Completion string;    (* date-fns format *)
  cwd : string;                               (* process.cwd() *)
  globalFetch : Transport;                    (* the ambient fetch *)
  dirSize : number;                           (* size stat reports for a directory *)
  fault : FsCall -> nat -> Fault
}.

Section Environment.

Context {env : Environment}.

(** *** File-system calls of [fs.promises] *)

Definition is_file (p : string) (w : World) : bool :=
  bool_decide (is_Some (files w !! p)).

Definition is_dir (p : string) (w : World) : bool :=
  bool_decide (p ∈ dirs w).

Definition fails {A} (c : FsCall) (e : Thrown) (w : World) : Completion A * World :=
  (Throw e, record_call c (Some e) w).

Definition succeeds {A} (c : FsCall) (a : A) (w : World) : Completion A * World :=
  (Normal a, record_call c None w).

Definition access (p : string) : M unit :=
  fun w =>
    match fault (CAccess p) (length (calls w)) with
    | Fail e _ => fails (CAccess p) e w
    | NoFault =>
        if is_file p w || is_dir p w then succeeds (CAccess p) tt w
        else fails (CAccess p) (fsError "ENOENT" "access" p) w
    end.

(** [(await fs.stat(p)).size]. *)
Definition stat_size (p : string) : M number :=
  fun w =>
    match fault (CStat p) (length (calls w)) with
    | Fail e _ => fails (CStat p) e w
    | NoFault =>
        match files w !! p with
        | Some data => succeeds (CStat p) (of_Z (byteLength data)) w
        | None =>
            if is_dir p w then succeeds (CStat p) dirSize w
            else fails (CStat p) (fsError "ENOENT" "stat" p) w
        end
    end.

Definition writeFile (p data : string) : M unit :=
  fun w =>
    match fault (CWriteFile p data) (length (calls w)) with
    | Fail e None => fails (CWriteFile p data) e w
    | Fail e (Some residue) =>
        fails (CWriteFile p data) e (set_files (<[p := residue]> (files w)) w)
    | NoFault =>
        if is_dir p w then fails (CWriteFile p data) (fsError "EISDIR" "open" p) w
        else succeeds (CWriteFile p data) tt (set_files (<[p := data]> (files w)) w)
    end.

(** [fs.rename] of a regular file; the program never renames a
    directory. *)
Definition rename (oldPath newPath : string) : M unit :=
  fun w =>
    match fault (CRename oldPath newPath) (length (calls w)) with
    | Fail e _ => fails (CRename oldPath newPath) e w
    | NoFault =>
        match files w !! oldPath with
        | None => fails (CRename oldPath newPath) (fsError "ENOENT" "rename" oldPath) w
        | Some data =>
            if is_dir newPath w
            then fails (CRename oldPath newPath) (fsError "EISDIR" "rename" oldPath) w
            else succeeds (CRename oldPath newPath) tt
                   (set_files (<[newPath := data]> (delete oldPath (files w))) w)
        end
    end.

Definition unlink (p : string) : M unit :=
  fun w =>
    match fault (CUnlink p) (length (calls w)) with
    | Fail e _ => fails (CUnlink p) e w
    | NoFault =>
        match files w !! p with
        | Some _ => succeeds (CUnlink p) tt (set_files (delete p (files w)) w)
        | None =>
            if is_dir p w then fails (CUnlink p) (fsError "EISDIR" "unlink" p) w
            else fails (CUnlink p) (fsError "ENOENT" "unlink" p) w
        end
    end.

(** [fs.mkdir(p, { recursive: true })]. *)
Definition mkdir_recursive (p : string) : M unit :=
  fun w =>
    match fault (CMkdir p) (length (calls w)) with
    | Fail e _ => fails (CMkdir p) e w
    | NoFault =>
        if is_file p w then fails (CMkdir p) (fsError "EEXIST" "mkdir" p) w
        else succeeds (CMkdir p) tt (set_dirs ({[p]} ∪ dirs w) w)
    end.

(** [await fs.access(p).then(() => true).catch(() => false)]. *)
Definition pathExists (p : string) : M bool :=
  tryCatch (access p ;;; ret true) (fun _ => ret false).

(** *** Types of the program *)

Record FileTemplate := mkTemplate {
  urlTemplate : string;
  outputFile : string
}.

Record DownloadResult := mkDownloadResult {
  downloadedFiles : list string;
  skippedFiles : list string;
  fileSizeWarnings : list string
}.

Record FetcherConfig := mkConfig {
  outputDir : string;
  sizeChangeThresholdPercent : number;
  baseUrl : string;
  dateFormat : string
}.

(** [Partial<FetcherConfig>]: every field may be absent. *)
Record PartialConfig := mkPartialConfig {
  p_outputDir : option string;
  p_sizeChangeThresholdPercent : option number;
  p_baseUrl : option string;
  p_dateFormat : option string
}.

(** The result of [downloadFile]. *)
Record FileOutcome := mkOutcome {
  success : bool;
  outcome_warning : option string
}.

Definition DEFAULT_CONFIG : FetcherConfig :=
  mkConfig (path_join cwd "data") (of_Z 20)
           "https://ea-edubase-backend-prod.azurewebsites.net/edubase"
           "yyyyMMdd".

Definition DEFAULT_URL_TEMPLATES : list FileTemplate :=
  [ mkTemplate "{baseUrl}/edubasealldata{0}.csv" "edubasealldata.csv";
    mkTemplate "{baseUrl}/links_edubasealldata{0}.csv" "links_edubasealldata.csv";
    mkTemplate "{baseUrl}/edubaseallstatefunded{0}.csv" "edubaseallstatefunded.csv";
    mkTemplate "{baseUrl}/links_edubaseallstatefunded{0}.csv"
               "links_edubaseallstatefunded.csv";
    mkTemplate "{baseUrl}/edubaseallacademiesandfree{0}.csv"
               "edubaseallacademiesandfree.csv";
    mkTemplate "{baseUrl}/links_edubaseallacademiesandfree{0}.csv"
               "links_edubaseallacademiesandfree.csv";
    mkTemplate "{baseUrl}/grouplinks_edubaseallacademiesandfree{0}.csv"
               "grouplinks_edubaseallacademiesandfree.csv";
    mkTemplate "{baseUrl}/edubaseallchildrencentre{0}.csv" "edubaseallchildrencentre.csv";
    mkTemplate "{baseUrl}/academiesmatmembership{0}.csv" "academiesmatmembership.csv";
    mkTemplate "{baseUrl}/governancealldata{0}.csv" "governancealldata.csv";
    mkTemplate "{baseUrl}/governancematdata{0}.csv" "governancematdata.csv";
    mkTemplate "{baseUrl}/governanceacaddata{0}.csv" "governanceacaddata.csv";
    mkTemplate "{baseUrl}/governanceladata{0}.csv" "governanceladata.csv" ].

(** Truthiness of a [string | null | undefined] value: only a non-empty
    string is truthy. *)
Definition truthy (s : option string) : bool :=
  match s with
  | Some EmptyString => false
  | Some _ => true
  | None => false
  end.

(** [a || b] on such values. *)
Definition or_else (a : option string) (b : string) : string :=
  match a with
  | Some s => if truthy a then s else b
  | None => b
  end.

Definition failure : FileOutcome := mkOutcome false None.

(** *** [downloadFile] *)

(** The [try] block. *)
Definition downloadFile_try
    (url outputPath tempPath : string) (sizeChangeThreshold : number)
    (fetchFn : Transport) : M FileOutcome :=
  response <- callTransport fetchFn url ;;
  if negb (ok response) then
    console_error ("HTTP error! Status: " +:+ numberToString (status response) +:+
                   " - " +:+ statusText response) ;;;
    ret failure
  else
    content <- await (text response) ;;
    let validation := validateCSVContent content in
    if negb (isValid validation) then
      console_error (or_else (reason validation) "Content validation failed") ;;;
      ret failure
    else
      writeFile tempPath content ;;;
      newFileSize <- stat_size tempPath ;;
      outputExists <- pathExists outputPath ;;
      sizeWarning <-
        (if outputExists then
           existingFileSize <- stat_size outputPath ;;
           let sizeChange :=
             checkFileSizeChange toFixed numberToString
               newFileSize existingFileSize sizeChangeThreshold
               (basename outputPath) in
           match warning sizeChange with
           | Some text =>
               if truthy (Some text) then console_log text ;;; ret (Some text)
               else ret None
           | None => ret None
           end
         else ret None) ;;
      rename tempPath outputPath ;;;
      console_log ("Successfully validated and saved " +:+ basename outputPath) ;;;
      match sizeWarning with
      | Some text => if truthy (Some text) then console_log text else ret tt
      | None => ret tt
      end ;;;
      ret (mkOutcome true sizeWarning).

(** The inner [try] of the [catch] block: delete the temporary file if it
    is there. *)
Definition cleanup_try (tempPath : string) : M FileOutcome :=
  tempExists <- pathExists tempPath ;;
  (if tempExists then unlink tempPath else ret tt) ;;;
  ret failure.

(** The inner [catch]: [cleanupError instanceof Error] picks the message;
    the template literal is evaluated before [console.error] is called. *)
Definition cleanup_catch (cleanupError : Thrown) : M FileOutcome :=
  match errorMessageOf cleanupError with
  | Some conversion =>
      message <- evaluate conversion ;;
      console_error ("Error cleaning up temp file: " +:+ message)
  | None => console_error "Unknown error during cleanup"
  end ;;;
  ret failure.

(** The [catch] block. Its first line converts the caught value to text
    outside the inner [try]: a throw of that conversion leaves
    [downloadFile]. *)
Definition downloadFile_catch (tempPath : string) (error : Thrown) : M FileOutcome :=
  shown <- evaluate (thrownToString error) ;;
  console_log ("Skipping file - not available or invalid: " +:+ shown) ;;;
  tryCatch (cleanup_try tempPath) cleanup_catch.

Definition downloadFile
    (url outputPath tempPath : string) (sizeChangeThreshold : option number)
    (fetchFn : option Transport) : M FileOutcome :=
  let sizeChangeThreshold :=
    default (sizeChangeThresholdPercent DEFAULT_CONFIG) sizeChangeThreshold in
  let fetchFn := default globalFetch fetchFn in
  console_log ("Attempting to download " +:+ url) ;;;
  tryCatch
    (downloadFile_try url outputPath tempPath sizeChangeThreshold fetchFn)
    (downloadFile_catch tempPath).

(** The transport refuses a request: it throws, or answers with a
    response that is not [ok]. *)
Definition transport_refuses (fetchFn : Transport) (url : string) (w : World) : Prop :=
  match fetchFn url (requests w) with
  | Throw _ => True
  | Normal response => ok response = false
  end.

(** The body a transport delivers for a request, when it delivers one. *)
Definition text_of (fetchFn : Transport) (url : string) (w : World) : option string :=
  match fetchFn url (requests w) with
  | Normal response =>
      match text response with
      | Normal content => Some content
      | Throw _ => None
      end
  | Throw _ => None
  end.

(** *** [fetchData] *)

Record Options := mkOptions {
  date : option Date;
  config : option PartialConfig;
  urlTemplates : option (list FileTemplate);
  fetchFn : option Transport
}.

(** [{ ...DEFAULT_CONFIG, ...options.config }]. *)
Definition mergeConfig (base : FetcherConfig) (over : option PartialConfig)
    : FetcherConfig :=
  match over with
  | None => base
  | Some o =>
      mkConfig (default (outputDir base) (p_outputDir o))
               (default (sizeChangeThresholdPercent base)
                        (p_sizeChangeThresholdPercent o))
               (default (baseUrl base) (p_baseUrl o))
               (default (dateFormat base) (p_dateFormat o))
  end.

(** [for (const x of xs) body], threading the variables the body updates. *)
Fixpoint for_of {A S} (body : S -> A -> M S) (xs : list A) (s : S) : M S :=
  match xs with
  | [] => ret s
  | x :: rest => s' <- body s x ;; for_of body rest s'
  end.

(** [xs.forEach(f)]. *)
Fixpoint forEach {A} (f : A -> M unit) (xs : list A) : M unit :=
  match xs with
  | [] => ret tt
  | x :: rest => f x ;;; forEach f rest
  end.

(** [xs.length] as a number. *)
Definition length_number {A} (xs : list A) : number :=
  of_Z (Z.of_nat (length xs)).

(** The URL and the two paths of one template. *)
Definition template_outputPath (config : FetcherConfig) (template : FileTemplate)
    : string :=
  path_join (outputDir config) (outputFile template).

Definition template_tempPath (config : FetcherConfig) (template : FileTemplate)
    : string :=
  template_outputPath config template +:+ ".tmp".

Definition template_url (config : FetcherConfig) (dateStr : string)
    (template : FileTemplate) : string :=
  let urlWithBase := replace (urlTemplate template) "{baseUrl}" (baseUrl config) in
  replace urlWithBase "{0}" dateStr.

(** One round of the loop over the templates; [lists] holds
    [downloadedFiles], [skippedFiles] and [fileSizeWarnings]. *)
Definition processTemplate (config : FetcherConfig) (dateStr : string)
    (fetchFn : Transport) (lists : DownloadResult) (template : FileTemplate)
    : M DownloadResult :=
  let outputPath := template_outputPath config template in
  let tempPath := template_tempPath config template in
  let url := template_url config dateStr template in
  result <- downloadFile url outputPath tempPath
              (Some (sizeChangeThresholdPercent config)) (Some fetchFn) ;;
  if success result then
    let downloaded := (downloadedFiles lists ++ [outputPath])%list in
    match outcome_warning result with
    | Some text =>
        if truthy (Some text)
        then ret (mkDownloadResult downloaded (skippedFiles lists)
                    (fileSizeWarnings lists ++ [text])%list)
        else ret (mkDownloadResult downloaded (skippedFiles lists)
                    (fileSizeWarnings lists))
    | None => ret (mkDownloadResult downloaded (skippedFiles lists)
                     (fileSizeWarnings lists))
    end
  else
    ret (mkDownloadResult (downloadedFiles lists)
           (skippedFiles lists ++ [outputFile template])%list
           (fileSizeWarnings lists)).

(** "Ensure output directory exists". *)
Definition ensureOutputDir (dir : string) : M unit :=
  tryCatch (access dir) (fun _ => mkdir_recursive dir).

Definition printSummary (lists : DownloadResult) : M unit :=
  console_log "=== Download Summary ===" ;;;
  console_log ("Successfully downloaded: " +:+
               numberToString (length_number (downloadedFiles lists)) +:+ " files") ;;;
  console_log ("Skipped files: " +:+
               numberToString (length_number (skippedFiles lists)) +:+ " files") ;;;
  console_log "=== Successfully Downloaded Files ===" ;;;
  forEach (fun file => console_log ("Downloaded: " +:+ file)) (downloadedFiles lists) ;;;
  (if (0 <? length (fileSizeWarnings lists))%nat then
     console_log "=== File Size Change Warnings ===" ;;;
     forEach (fun warning => console_log warning) (fileSizeWarnings lists)
   else ret tt) ;;;
  console_log "=== Skipped Files ===" ;;;
  forEach (fun file => console_log ("Skipped: " +:+ file)) (skippedFiles lists).

Definition fetchData (options : Options) : M DownloadResult :=
  let date := default now (date options) in
  let config := mergeConfig DEFAULT_CONFIG (config options) in
  let templates := default DEFAULT_URL_TEMPLATES (urlTemplates options) in
  let fetchFn := default globalFetch (fetchFn options) in
  ensureOutputDir (outputDir config) ;;;
  dateStr <- await (format date (dateFormat config)) ;;
  lists <- for_of (processTemplate config dateStr fetchFn) templates
             (mkDownloadResult [] [] []) ;;
  printSummary lists ;;;
  ret lists.

End Environment.

End Fetcher.

(** ** Specification-side notions for the fetcher *)

Module FetcherSpec.
Import Text Validator Num SizeCheck Fetcher.

Local Open Scope list_scope.

(** A computation that always completes normally. *)
Definition returns {A} (m : M A) : Prop :=
  forall w, exists a w', m w = (Normal a, w').

(** The world [downloadFile] runs its [try] block in: the first console
    line is out. *)
Definition started (url : string) (w : World) : World :=
  snd (console_log ("Attempting to download " +:+ url) w).

(** A thrown value whose string conversion gives a text. *)
Definition printable (e : Thrown) : Prop :=
  exists shown, thrownToString e = Normal shown.

(** A thrown value that is no [Error] instance, or one whose message
    converts to text. *)
Definition message_printable (e : Thrown) : Prop :=
  forall raised, errorMessageOf e <> Some (Throw raised).

Section WithEnvironment.

Context {env : Environment}.

(** The values [fetchData] resolves from its options. *)
Definition effective_date (options : Options) : Date :=
  default now (date options).

Definition effective_config (options : Options) : FetcherConfig :=
  mergeConfig DEFAULT_CONFIG (config options).

Definition effective_templates (options : Options) : list FileTemplate :=
  default DEFAULT_URL_TEMPLATES (urlTemplates options).

Definition effective_transport (options : Options) : Transport :=
  default globalFetch (Fetcher.fetchFn options).

(** [processed config dateStr fetchFn w templates outcomes w']: starting in
    [w], [downloadFile] was run once for each template, in order, each run
    starting where the one before ended; it returned [outcomes] and left
    [w']. *)
Inductive processed (config : FetcherConfig) (dateStr : string) (fetchFn : Transport)
    : World -> list FileTemplate -> list FileOutcome -> World -> Prop :=
  | processed_nil w : processed config dateStr fetchFn w [] [] w
  | processed_cons w template result w1 rest results w2 :
      downloadFile (template_url config dateStr template)
        (template_outputPath config template)
        (template_tempPath config template)
        (Some (sizeChangeThresholdPercent config)) (Some fetchFn) w
      = (Normal result, w1) ->
      processed config dateStr fetchFn w1 rest results w2 ->
      processed config dateStr fetchFn w (template :: rest) (result :: results) w2.

(** [aborted config dateStr fetchFn w templates e w']: starting in [w],
    [downloadFile] returned for the templates before some template and
    threw [e] for that one, leaving [w']; the templates after it were
    not touched. *)
Inductive aborted (config : FetcherConfig) (dateStr : string) (fetchFn : Transport)
    : World -> list FileTemplate -> Thrown -> World -> Prop :=
  | aborted_here w template rest e w' :
      downloadFile (template_url config dateStr template)
        (template_outputPath config template)
        (template_tempPath config template)
        (Some (sizeChangeThresholdPercent config)) (Some fetchFn) w
      = (Throw e, w') ->
      aborted config dateStr fetchFn w (template :: rest) e w'
  | aborted_later w template result w1 rest e w' :
      downloadFile (template_url config dateStr template)
        (template_outputPath config template)
        (template_tempPath config template)
        (Some (sizeChangeThresholdPercent config)) (Some fetchFn) w
      = (Normal result, w1) ->
      aborted config dateStr fetchFn w1 rest e w' ->
      aborted config dateStr fetchFn w (template :: rest) e w'.

(** The three lists, read off the templates paired with their outcomes. *)
Definition downloaded_of (config : FetcherConfig)
    (runs : list (FileTemplate * FileOutcome)) : list string :=
  map (fun run => template_outputPath config (fst run))
      (List.filter (fun run => success (snd run)) runs).

Definition skipped_of (runs : list (FileTemplate * FileOutcome)) : list string :=
  map (fun run => outputFile (fst run))
      (List.filter (fun run => negb (success (snd run))) runs).

Definition warnings_of (runs : list (FileTemplate * FileOutcome)) : list string :=
  flat_map (fun run => match outcome_warning (snd run) with
                       | Some text => [text]
                       | None => []
                       end)
           (List.filter (fun run => success (snd run)) runs).

(** The lists after one more outcome. *)
Definition add_outcome (config : FetcherConfig) (lists : DownloadResult)
    (template : FileTemplate) (result : FileOutcome) : DownloadResult :=
  if success result then
    mkDownloadResult
      (downloadedFiles lists ++ [template_outputPath config template])
      (skippedFiles lists)
      (fileSizeWarnings lists ++
       match outcome_warning result with Some text => [text] | None => [] end)
  else
    mkDownloadResult (downloadedFiles lists)
      (skippedFiles lists ++ [outputFile template])
      (fileSizeWarnings lists).

End WithEnvironment.

End FetcherSpec.

(** ** Sample environments, transports and worlds for the worked examples *)

Module Samples.
Import Text Num Fetcher.

(** Formatting stand-ins. *)
Definition sample_toFixed (x : number) (digits : nat) : string := "?".
Definition sample_numberToString (x : number) : string := "?".

Definition no_faults : FsCall -> nat -> Fault := fun _ _ => NoFault.

(** The environment makes every [unlink] fail. *)
Definition unlink_fails : FsCall -> nat -> Fault :=
  fun c _ =>
    match c with
    | CUnlink _ => Fail (ErrorObject "Error" "Disk error") None
    | _ => NoFault
    end.

(** The environment makes every [rename] and every [unlink] fail. *)
Definition rename_and_unlink_fail : FsCall -> nat -> Fault :=
  fun c _ =>
    match c with
    | CRename _ _ => Fail (ErrorObject "Error" "EXDEV: cross-device link not permitted") None
    | CUnlink _ => Fail (ErrorObject "Error" "Disk error") None
    | _ => NoFault
    end.

(** The environment makes every [rename] fail. *)
Definition rename_fails : FsCall -> nat -> Fault :=
  fun c _ =>
    match c with
    | CRename _ _ => Fail (ErrorObject "Error" "EXDEV: cross-device link not permitted") None
    | _ => NoFault
    end.

Definition network_error : Transport :=
  fun _ _ => Throw (ErrorObject "Error" "Network error").

Definition csv_body : string := "header1,header2" +:+ String LF "value1,value2".

Definition csv_server : Transport :=
  fun _ _ => Normal (mkResponse true (of_Z 200) "OK" (Normal csv_body)).

Definition not_found : Transport :=
  fun _ _ => Normal (mkResponse false (of_Z 404) "Not Found" (Normal "Not Found")).

(** A server that knows one URL only. *)
Definition one_file_server (known : string) : Transport :=
  fun url _ =>
    if String.eqb url known
    then Normal (mkResponse true (of_Z 200) "OK" (Normal csv_body))
    else Normal (mkResponse false (of_Z 404) "Not Found" (Normal "Not Found")).

Definition sample_env (faults : FsCall -> nat -> Fault) : Environment := {|
  toFixed := sample_toFixed;
  numberToString := sample_numberToString;
  byteLength := fun s => Z.of_nat (String.length s);
  basename := fun p => p;
  path_join := fun dir file => dir +:+ "/" +:+ file;
  replace := fun s _ _ => s;
  Date := unit;
  now := tt;
  format := fun _ _ => Normal "20240101";
  cwd := "/work";
  globalFetch := network_error;
  dirSize := of_Z 4096;
  fault := faults
|}.

Definition empty_world : World := mkWorld ∅ ∅ [] [] 0.

(** A world holding one file. *)
Definition world_with (p data : string) : World :=
  mkWorld {[ p := data ]} ∅ [] [] 0.

(** A world holding the directory [data] and nothing else. *)
Definition world_with_dir (dir : string) : World :=
  mkWorld ∅ {[ dir ]} [] [] 0.

(** Two templates, the first answered with 404 and the second with a CSV
    body. *)
Definition two_templates : Options :=
  mkOptions (env := sample_env no_faults) None
    (Some (mkPartialConfig (Some "data") None None None))
    (Some [ mkTemplate "http://host/404.csv" "404.csv";
            mkTemplate "http://host/test1.csv" "test1.csv" ])
    (Some (one_file_server "http://host/test1.csv")).

End Samples.

(** ** Further notions for statements about the validator *)

Module ValidatorSpec.
Import Text.

(** The number of line feeds in a string. *)
Fixpoint count_LF (s : string) : nat :=
  match s with
  | EmptyString => 0
  | String c s' => if Ascii.eqb c LF then S (count_LF s') else count_LF s'
  end.

(** A comma with fewer than three line feeds before it: a comma on the
    first, second or third line. *)
Definition comma_before_third_LF (content : string) : Prop :=
  exists pre post,
    content = pre +:+ String "," post /\ count_LF pre < 3.

End ValidatorSpec.

(** ** Further notions for statements about the orchestrator *)

Module OrchestratorSpec.
Import Fetcher FetcherSpec.

(** A computation that only writes to the console: it completes normally
    and leaves files, directories, the call record and the request count
    as they were. *)
Definition console_only (m : M unit) : Prop :=
  forall w, exists w',
    m w = (Normal tt, w') /\
    files w' = files w /\ dirs w' = dirs w /\
    calls w' = calls w /\ requests w' = requests w.

(** Every value the transport rejects a request with, and every value the
    reading of a response body throws, has a string conversion. *)
Definition printable_transport (fetchFn : Transport) : Prop :=
  (forall url n e, fetchFn url n = Throw e -> printable e) /\
  (forall url n response e,
     fetchFn url n = Normal response -> text response = Throw e -> printable e).

(** Every error the environment fails a file-system call with has a
    string conversion, and so has its message. *)
Definition printable_faults {env : Environment} : Prop :=
  forall c n e residue,
    fault c n = Fail e residue -> printable e /\ message_printable e.

End OrchestratorSpec.

(** ** Further sample transports and runs *)

Module MoreSamples.
Import Text Num Fetcher Samples.

Definition html_body : string := "<!DOCTYPE html><html><body>Service unavailable, try later</body></html>".

(** A server that answers 200 with an error page. *)
Definition html_server : Transport :=
  fun _ _ => Normal (mkResponse true (of_Z 200) "OK" (Normal html_body)).

(** A first download into an empty world. *)
Definition first_download : Completion FileOutcome * World :=
  @downloadFile (sample_env no_faults) "u" "out.csv" "out.csv.tmp" None
    (Some csv_server) empty_world.

(** A download over an older file. *)
Definition second_download : Completion FileOutcome * World :=
  @downloadFile (sample_env no_faults) "u" "out.csv" "out.csv.tmp" None
    (Some csv_server) (world_with "out.csv" "old,data").

(** A 404 over an older file. *)
Definition refused_download : Completion FileOutcome * World :=
  @downloadFile (sample_env no_faults) "u" "out.csv" "out.csv.tmp" None
    (Some not_found) (world_with "out.csv" "old,data").

Definition sample_config : FetcherConfig :=
  mkConfig "data" (of_Z 20) "http://host" "yyyyMMdd".

(** One round of the loop, for a template the server knows. *)
Definition one_round : Completion DownloadResult * World :=
  @processTemplate (sample_env no_faults) sample_config "20240101"
    (one_file_server "http://host/test1.csv") (mkDownloadResult [] [] [])
    (mkTemplate "http://host/test1.csv" "test1.csv") (world_with_dir "data").

(** The run of [fetchData] over [two_templates]. *)
Definition two_templates_run : Completion DownloadResult * World :=
  @fetchData (sample_env no_faults) two_templates (world_with_dir "data").

(** The environment makes every [rename] fail, and the existence check
    of the temporary file too. *)
Definition rename_and_temp_access_fail : FsCall -> nat -> Fault :=
  fun c _ =>
    match c with
    | CRename _ _ => Fail (ErrorObject "Error" "EXDEV: cross-device link not permitted") None
    | CAccess p =>
        if String.eqb p "out.csv.tmp"
        then Fail (ErrorObject "Error" "EACCES: permission denied") None
        else NoFault
    | _ => NoFault
    end.

(** A transport that rejects every request with a Symbol. *)
Definition symbol_rejection : Transport := fun _ _ => Throw thrownSymbol.

(** A server that rejects the request for [bad] with [rejection] and
    answers every other request with a CSV body. *)
Definition rejecting_server (bad : string) (rejection : Thrown) : Transport :=
  fun url _ =>
    if String.eqb url bad then Throw rejection
    else Normal (mkResponse true (of_Z 200) "OK" (Normal csv_body)).

(** Two templates, the first of them rejected with [rejection]. *)
Definition first_rejected (rejection : Thrown) : Options :=
  mkOptions (env := sample_env no_faults) None
    (Some (mkPartialConfig (Some "data") None None None))
    (Some [ mkTemplate "http://host/bad.csv" "bad.csv";
            mkTemplate "http://host/test1.csv" "test1.csv" ])
    (Some (rejecting_server "http://host/bad.csv" rejection)).

(** Options with an empty template list. *)
Definition no_templates : Options :=
  mkOptions (env := sample_env no_faults) None
    (Some (mkPartialConfig (Some "data") None None None))
    (Some []) (Some csv_server).

End MoreSamples.

(** ** Facts about the string primitives *)

Module TextFacts.
Import Text.

Lemma startsWith_spec s pat :
  startsWith s pat = true <-> exists post, s = pat +:+ post.
Proof.
  revert s. induction pat as [|p pat IH]; intros s.
  - split; [intros _; now exists s | now destruct s].
  - destruct s as [|c s].
    + split; [discriminate | intros [post H]; discriminate].
    + change (startsWith (String c s) (String p pat))
        with (if Ascii.eqb p c then startsWith s pat else false).
      destruct (Ascii.eqb_spec p c) as [->|Hne].
      * rewrite IH. split; intros [post H]; exists post.
        -- now rewrite H.
        -- now injection H.
      * split; [discriminate | intros [post H]].
        injection H as H1 _. congruence.
Qed.

Lemma includes_unfold s pat :
  includes s pat =
  if startsWith s pat then true
  else match s with
       | EmptyString => false
       | String _ s' => includes s' pat
       end.
Proof. destruct s; reflexivity. Qed.

Lemma includes_here s pat : startsWith s pat = true -> includes s pat = true.
Proof. intros H. rewrite includes_unfold. now rewrite H. Qed.

Lemma includes_later c s pat : includes s pat = true -> includes (String c s) pat = true.
Proof. intros H. rewrite includes_unfold. now destruct (startsWith _ _). Qed.

Lemma includes_spec s pat :
  includes s pat = true <-> substring_of pat s.
Proof.
  unfold substring_of. split.
  - induction s as [|c s IH]; rewrite includes_unfold;
      destruct (startsWith _ pat) eqn:E.
    + apply startsWith_spec in E as [post E]. intros _. now exists "", post.
    + discriminate.
    + apply startsWith_spec in E as [post E]. intros _. now exists "", post.
    + intros H. destruct (IH H) as (pre & post & ->).
      now exists (String c pre), post.
  - intros (pre & post & ->). induction pre as [|c pre IH].
    + apply includes_here, startsWith_spec. now exists post.
    + apply includes_later, IH.
Qed.

Lemma includes_char_spec s c :
  includes s (String c "") = true <-> has_char c s.
Proof.
  rewrite includes_spec. unfold substring_of, has_char.
  split; intros (pre & post & ->); exists pre, post; reflexivity.
Qed.

Lemma split_lines_nonempty s : split_lines s <> [].
Proof.
  destruct s as [|c s]; simpl; [discriminate|].
  destruct (Ascii.eqb c LF); [discriminate|].
  destruct (split_lines s); discriminate.
Qed.

(** [split] loses nothing: joining the pieces with line feeds gives the
    content back. *)
Lemma join_split_lines s : join_lines (split_lines s) = s.
Proof.
  induction s as [|c s IH]; simpl; [reflexivity|].
  destruct (Ascii.eqb_spec c LF) as [->|Hne].
  - pose proof (split_lines_nonempty s) as Hs.
    simpl. destruct (split_lines s) as [|l ls]; [contradiction|].
    simpl in *. now rewrite IH.
  - destruct (split_lines s) as [|l ls] eqn:E.
    + now destruct (split_lines_nonempty s).
    + simpl in *. destruct ls; simpl in *; now rewrite <- IH.
Qed.

(** No piece of [split] holds a line feed. *)
Lemma split_lines_no_LF s line :
  In line (split_lines s) -> includes line (String LF "") = false.
Proof.
  revert line. induction s as [|c s IH]; intros line; simpl.
  - intros [<-|[]]. reflexivity.
  - destruct (Ascii.eqb_spec c LF) as [->|Hne].
    + intros [<-|H]; [reflexivity | now apply IH].
    + destruct (split_lines s) as [|l ls] eqn:E.
      * now destruct (split_lines_nonempty s).
      * intros [<-|H].
        -- simpl. destruct (Ascii.eqb_spec LF c) as [Heq|_]; [now symmetry in Heq|].
           apply IH. now left.
        -- apply IH. now right.
Qed.

Lemma some_spec {A} (p : A -> bool) arr :
  some p arr = true <-> exists x, In x arr /\ p x = true.
Proof. apply existsb_exists. Qed.

End TextFacts.

(** ** The content validator: results *)

Module ValidatorFacts.
Import Text Validator ValidatorSpec TextFacts.

Lemma isHtmlContent_spec content :
  isHtmlContent content = true <-> has_html_marker content.
Proof.
  unfold isHtmlContent, has_html_marker, some, htmlPatterns, existsb.
  rewrite !orb_true_iff, !includes_spec. intuition discriminate.
Qed.

Lemma isValidCsv_spec content :
  isValidCsv content = true <-> comma_in_first_lines content.
Proof.
  unfold isValidCsv, comma_in_first_lines. rewrite some_spec.
  split; intros (line & Hin & H); exists line; split; auto;
    now apply includes_char_spec.
Qed.

Lemma validateCSVContent_cases content :
  validateCSVContent content =
  if isHtmlContent content
  then mkValidation false (Some "Content contains HTML markup")
  else if isValidCsv content
       then mkValidation true None
       else mkValidation false (Some "Content lacks comma separators").
Proof.
  unfold validateCSVContent, isHtmlContent, isValidCsv.
  destruct (some _ htmlPatterns); [reflexivity|].
  cbv zeta. now destruct (some _ (slice0 3 _)).
Qed.

Lemma includes_comma_cons c l :
  includes (String c l) "," = Ascii.eqb "," c || includes l ",".
Proof.
  rewrite includes_unfold.
  change (startsWith (String c l) ",")
    with (if Ascii.eqb "," c then startsWith l "" else false).
  destruct (Ascii.eqb "," c); [now destruct l | reflexivity].
Qed.

Lemma count_LF_cons c s :
  count_LF (String c s) = if Ascii.eqb c LF then S (count_LF s) else count_LF s.
Proof. reflexivity. Qed.

(** A comma shows in one of the first [n] pieces of [split] exactly when
    the string holds a comma with fewer than [n] line feeds before it. *)
Lemma comma_in_slice_iff n s :
  some (fun line => includes line ",") (slice0 n (split_lines s)) = true <->
  exists pre post, s = pre +:+ String "," post /\ count_LF pre < n.
Proof.
  unfold some, slice0. revert n. induction s as [|c s IH]; intros n.
  - split.
    + destruct n as [|[|n]]; discriminate.
    + intros (pre & post & H & _). destruct pre; discriminate.
  - change (split_lines (String c s))
      with (if Ascii.eqb c LF then EmptyString :: split_lines s
            else match split_lines s with
                 | l :: ls => String c l :: ls
                 | [] => [String c EmptyString]
                 end).
    destruct (Ascii.eqb_spec c LF) as [->|Hc].
    + destruct n as [|n].
      * split; [discriminate|]. intros (pre & post & _ & Hn). lia.
      * change (existsb (fun line => includes line ",")
                  (firstn (S n) ("" :: split_lines s)))
          with (existsb (fun line => includes line ",") (firstn n (split_lines s))).
        rewrite IH. split.
        -- intros (pre & post & -> & Hn). exists (String LF pre), post.
           split; [reflexivity|]. rewrite count_LF_cons.
           rewrite (proj2 (Ascii.eqb_eq LF LF) eq_refl). lia.
        -- intros (pre & post & H & Hn). destruct pre as [|c' pre].
           ++ discriminate.
           ++ injection H as <- ->. rewrite count_LF_cons in Hn.
              rewrite (proj2 (Ascii.eqb_eq LF LF) eq_refl) in Hn.
              exists pre, post. split; [reflexivity | lia].
    + destruct (split_lines s) as [|l ls] eqn:E;
        [now destruct (split_lines_nonempty s)|].
      destruct n as [|n].
      * split; [discriminate|]. intros (pre & post & _ & Hn). lia.
      * specialize (IH (S n)).
        change (existsb (fun line => includes line ",") (firstn (S n) (l :: ls)))
          with (includes l "," || existsb (fun line => includes line ",") (firstn n ls))
          in IH.
        change (existsb (fun line => includes line ",")
                  (firstn (S n) (String c l :: ls)))
          with (includes (String c l) ","
                || existsb (fun line => includes line ",") (firstn n ls)).
        rewrite includes_comma_cons, <- orb_assoc, orb_true_iff, IH.
        split.
        -- intros [Hcomma|(pre & post & -> & Hn)].
           ++ apply Ascii.eqb_eq in Hcomma as <-. exists "", s.
              split; [reflexivity | simpl; lia].
           ++ exists (String c pre), post. split; [reflexivity|].
              rewrite count_LF_cons.
              destruct (Ascii.eqb_spec c LF); [contradiction | exact Hn].
        -- intros (pre & post & H & Hn). destruct pre as [|c' pre].
           ++ injection H as -> _. left. now apply Ascii.eqb_eq.
           ++ injection H as <- ->. right. exists pre, post.
              split; [reflexivity|]. rewrite count_LF_cons in Hn.
              destruct (Ascii.eqb_spec c LF); [contradiction | exact Hn].
Qed.

Lemma isValidCsv_position content :
  isValidCsv content = true <-> comma_before_third_LF content.
Proof. apply comma_in_slice_iff. Qed.

(** C1: the validator reports valid exactly when the content holds none
    of the four HTML markers and holds a comma on one of its first three
    lines, that is, a comma with fewer than three line feeds before it;
    the empty string is reported invalid, by the comma rule. *)
Theorem validateCSVContent_valid_iff :
  (forall content : string,
     isValid (validateCSVContent content) = true <->
     ~ has_html_marker content /\ comma_before_third_LF content) /\
  validateCSVContent "" = mkValidation false (Some "Content lacks comma separators").
Proof.
  split; [|reflexivity].
  intros content. rewrite validateCSVContent_cases.
  rewrite <- isHtmlContent_spec, <- isValidCsv_position.
  destruct (isHtmlContent content), (isValidCsv content); simpl;
    intuition congruence.
Qed.

(** C10: the consolidated validator agrees with the two legacy
    predicates: valid exactly when [isHtmlContent] is false and
    [isValidCsv] is true. *)
Theorem validateCSVContent_legacy_equiv :
  forall content : string,
    isValid (validateCSVContent content)
    = negb (isHtmlContent content) && isValidCsv content /\
    (isValid (validateCSVContent content) = true <->
     isHtmlContent content = false /\ isValidCsv content = true).
Proof.
  intros content. rewrite validateCSVContent_cases.
  destruct (isHtmlContent content), (isValidCsv content); simpl;
    intuition congruence.
Qed.

(** C9, as the code has it: the rules apply in order, and the reasons are
    the texts "Content contains HTML markup" (whenever a marker occurs,
    commas or not) and "Content lacks comma separators" (no marker, no
    comma in the first three lines). *)
Theorem validateCSVContent_reasons :
  forall content : string,
    (has_html_marker content ->
     validateCSVContent content
     = mkValidation false (Some "Content contains HTML markup")) /\
    (~ has_html_marker content -> ~ comma_in_first_lines content ->
     validateCSVContent content
     = mkValidation false (Some "Content lacks comma separators")).
Proof.
  intros content. rewrite validateCSVContent_cases.
  rewrite <- isHtmlContent_spec, <- isValidCsv_spec.
  destruct (isHtmlContent content), (isValidCsv content); simpl;
    intuition congruence.
Qed.

(** C9 as stated fails: the reason the validator gives for "<html" is not
    the text "contains HTML markup", and the reason it gives for the
    comma-less "abc" is not "lacks comma separators". *)
Lemma validateCSVContent_reason_text_counterexample :
  has_html_marker "<html" /\
  reason (validateCSVContent "<html") <> Some "contains HTML markup" /\
  ~ has_html_marker "abc" /\ ~ comma_in_first_lines "abc" /\
  reason (validateCSVContent "abc") <> Some "lacks comma separators".
Proof.
  split; [apply isHtmlContent_spec; reflexivity|].
  split; [discriminate|].
  split; [rewrite <- isHtmlContent_spec; discriminate|].
  split; [rewrite <- isValidCsv_spec; discriminate|].
  discriminate.
Qed.

Lemma validateCSVContent_reasons_witness :
  validateCSVContent "<html>a,b"
  = mkValidation false (Some "Content contains HTML markup") /\
  validateCSVContent "abc"
  = mkValidation false (Some "Content lacks comma separators").
Proof.
  split.
  - apply (proj1 (validateCSVContent_reasons "<html>a,b")).
    apply isHtmlContent_spec. reflexivity.
  - apply (proj2 (validateCSVContent_reasons "abc")).
    + rewrite <- isHtmlContent_spec. discriminate.
    + rewrite <- isValidCsv_spec. discriminate.
Defined.

(** The cases of [test/validation.test.ts], and a comma that comes too
    late: only the first three lines count. *)
Example validation_test_cases :
  isHtmlContent "<!DOCTYPE html><html>" = true /\
  isHtmlContent "text with <body> tag in it" = true /\
  isHtmlContent "text with <head> tag in it" = true /\
  isValidCsv "single,line,csv" = true /\
  isValidCsv "" = false /\
  isValid (validateCSVContent
             ("a" +:+ String LF ("b" +:+ String LF ("c" +:+ String LF "d,e"))))
  = false.
Proof. repeat split. Qed.

End ValidatorFacts.

(** ** Numbers: the facts the size check rests on *)

Module NumFacts.
Import Num.

(** Comparison read backwards gives the opposite answer. *)
Lemma SFcompare_antisym (x y : number) :
  SFcompare y x = option_map CompOpp (SFcompare x y).
Proof.
  destruct x as [sx|sx| |sx mx ex], y as [sy|sy| |sy my ey]; simpl;
    try destruct sx; try destruct sy; try reflexivity.
  all: rewrite (Z.compare_antisym ex ey);
    change (Pos.compare_cont Eq my mx) with (Pos.compare my mx);
    change (Pos.compare_cont Eq mx my) with (Pos.compare mx my);
    rewrite (Pos.compare_antisym mx my);
    destruct (ex ?= ey)%Z; simpl; rewrite ?CompOpp_involutive; reflexivity.
Qed.

(** Equal numbers are not one greater than the other. *)
Lemma strict_eq_not_gt x y : strict_eq x y = true -> gt x y = false.
Proof.
  unfold strict_eq, gt, SFeqb, SFltb. rewrite (SFcompare_antisym x y).
  destruct (SFcompare x y) as [[]|]; simpl; congruence.
Qed.

Lemma gt_not_strict_eq x y : gt x y = true -> strict_eq x y = false.
Proof.
  intros H. destruct (strict_eq x y) eqn:E; [|reflexivity].
  apply strict_eq_not_gt in E. congruence.
Qed.

Lemma gt_asym x y : gt x y = true -> gt y x = false.
Proof.
  unfold gt, SFltb. rewrite (SFcompare_antisym x y).
  destruct (SFcompare x y) as [[]|]; simpl; congruence.
Qed.

(** Two comparable numbers that are not equal are ordered one way. *)
Lemma gt_total x y :
  is_nan x = false -> is_nan y = false -> strict_eq x y = false ->
  gt x y = negb (gt y x).
Proof.
  unfold gt, strict_eq, SFltb, SFeqb. rewrite (SFcompare_antisym x y).
  intros Hx Hy.
  assert (SFcompare x y <> None) as Hc
    by (destruct x, y; simpl in *; congruence).
  destruct (SFcompare x y) as [[]|]; simpl; congruence.
Qed.

Lemma gt_not_nan_l x y : gt x y = true -> is_nan x = false.
Proof. unfold gt, SFltb. destruct x, y; simpl; congruence. Qed.

(** Rounding does not look at the sign. *)
Lemma abs_binary_round_aux s m e l :
  abs (binary_round_aux prec emax s m e l) = binary_round_aux prec emax false m e l.
Proof.
  unfold binary_round_aux.
  destruct (shr_fexp prec emax m e l) as [mrs' e'].
  destruct (shr_fexp prec emax _ e' loc_Exact) as [mrs'' e''].
  destruct (shr_m mrs''); [reflexivity| |reflexivity].
  now destruct (e'' <=? emax - prec)%Z.
Qed.

Lemma abs_binary_round s m e :
  abs (binary_round prec emax s m e) = binary_round prec emax false m e.
Proof.
  unfold binary_round.
  destruct (shl_align m e _) as [mz ez]. apply abs_binary_round_aux.
Qed.

Lemma abs_binary_normalize_opp m e :
  abs (binary_normalize prec emax (- m) e false)
  = abs (binary_normalize prec emax m e false).
Proof.
  destruct m as [|p|p]; simpl; [reflexivity| |];
    now rewrite !abs_binary_round.
Qed.

(** The literal [100]. *)
Lemma of_Z_100 : of_Z 100 = S754_finite false 7036874417766400 (-46).
Proof. reflexivity. Qed.

Lemma of_Z_0 : of_Z 0 = S754_zero false.
Proof. reflexivity. Qed.

(** [Math.abs(x * 100)] is [Math.abs(x) * 100]. *)
Lemma abs_mul_100 x : abs (mul x (of_Z 100)) = mul (abs x) (of_Z 100).
Proof.
  rewrite of_Z_100. destruct x as [s|s| |s m e]; unfold mul, abs; simpl;
    try reflexivity.
  apply abs_binary_round_aux.
Qed.

(** [|x - y|] is [|y - x|], rounding included. *)
Lemma abs_sub_swap x y : abs (sub x y) = abs (sub y x).
Proof.
  destruct x as [sx|sx| |sx mx ex], y as [sy|sy| |sy my ey];
    unfold sub, SFsub; try (destruct sx, sy; reflexivity); try reflexivity.
  rewrite (Z.min_comm ey ex).
  rewrite <- abs_binary_normalize_opp. f_equal. f_equal. lia.
Qed.

(** A number greater than zero is not zero. *)
Lemma gt_zero_not_zero x : gt x (of_Z 0) = true -> strict_eq x (of_Z 0) = false.
Proof. apply gt_not_strict_eq. Qed.

End NumFacts.

(** ** The size-change check: results *)

Module SizeCheckFacts.
Import Num SizeCheck NumFacts Samples.

Section WithFormatting.

Variable toFixed : number -> nat -> string.
Variable numberToString : number -> string.

Local Abbreviation checkFileSizeChange :=
  (checkFileSizeChange toFixed numberToString).
Local Abbreviation warning_text := (warning_text toFixed numberToString).

(** The percentage of the specification is the one the code computes. *)
Lemma percentDiff_spec_eq newSize oldSize :
  percentDiff_spec newSize oldSize = sizeDifferencePercent newSize oldSize.
Proof.
  unfold percentDiff_spec, sizeDifferencePercent. now rewrite abs_mul_100.
Qed.

(** The two shapes of a result. *)
Lemma checkFileSizeChange_cases newSize oldSize threshold fileName :
  checkFileSizeChange newSize oldSize threshold fileName =
  if strict_eq oldSize (of_Z 0) then mkSizeChange false None
  else if gt (sizeDifferencePercent newSize oldSize) threshold
       then mkSizeChange true
              (Some (warning_text fileName (changeDirection newSize oldSize)
                       (sizeDifferencePercent newSize oldSize) oldSize newSize))
       else mkSizeChange false None.
Proof. reflexivity. Qed.

(** A warning is never the empty string. *)
Lemma warning_text_nonempty fileName direction percent oldSize newSize :
  warning_text fileName direction percent oldSize newSize <> "".
Proof. discriminate. Qed.

Lemma checkFileSizeChange_warning_nonempty newSize oldSize threshold fileName :
  warning (checkFileSizeChange newSize oldSize threshold fileName) <> Some "".
Proof.
  rewrite checkFileSizeChange_cases.
  destruct (strict_eq _ _); [discriminate|].
  destruct (gt _ _); discriminate.
Qed.

(** C5: with an old size of zero (either sign of zero) the check returns
    "not changed, no warning" whatever the new size, the threshold and the
    label are; the division is not reached. *)
Theorem checkFileSizeChange_zero_oldSize :
  forall (newSize threshold : number) (fileName : string),
    checkFileSizeChange newSize (of_Z 0) threshold fileName = mkSizeChange false None /\
    forall s : bool,
      checkFileSizeChange newSize (S754_zero s) threshold fileName
      = mkSizeChange false None.
Proof.
  intros newSize threshold fileName. split; [reflexivity|].
  intros s. rewrite checkFileSizeChange_cases. now destruct s.
Qed.

(** C6, amended: for an old size above zero, a warning is produced
    exactly when the binary64 value that
    [abs((newSize - oldSize) / oldSize) * 100] evaluates to is strictly
    greater than the threshold; when that evaluated value equals the
    threshold there is no warning. *)
Theorem checkFileSizeChange_warns_iff :
  forall (newSize oldSize threshold : number) (fileName : string),
    gt oldSize (of_Z 0) = true ->
    (warning (checkFileSizeChange newSize oldSize threshold fileName) <> None <->
     gt (percentDiff_spec newSize oldSize) threshold = true) /\
    (strict_eq (percentDiff_spec newSize oldSize) threshold = true ->
     checkFileSizeChange newSize oldSize threshold fileName = mkSizeChange false None).
Proof.
  intros newSize oldSize threshold fileName Hold.
  rewrite percentDiff_spec_eq, checkFileSizeChange_cases.
  rewrite (gt_zero_not_zero _ Hold). split.
  - destruct (gt _ threshold); simpl; split; congruence.
  - intros Heq. now rewrite (strict_eq_not_gt _ _ Heq).
Qed.

(** C7 as stated fails: from 26 to 34 bytes is a change of 30.77 percent
    of the old size, from 34 to 26 bytes one of 23.53 percent; the swap
    does not keep the percentage. *)
Lemma swap_changes_percent_counterexample :
  gt (of_Z 34) (of_Z 0) = true /\ gt (of_Z 26) (of_Z 0) = true /\
  sizeDifferencePercent (of_Z 34) (of_Z 26)
  <> sizeDifferencePercent (of_Z 26) (of_Z 34) /\
  gt (sizeDifferencePercent (of_Z 34) (of_Z 26)) (of_Z 30) = true /\
  gt (of_Z 24) (sizeDifferencePercent (of_Z 26) (of_Z 34)) = true.
Proof. vm_compute. repeat split; congruence. Qed.

(** C7, amended: for sizes above zero that differ, swapping the first two
    arguments flips the direction label (also inside the two warnings,
    when both calls warn) and keeps the absolute difference
    [|newSize - oldSize|]; the percentage is taken of each call's own old
    size. *)
Theorem checkFileSizeChange_swap :
  forall (newSize oldSize threshold : number) (fileName : string),
    gt newSize (of_Z 0) = true ->
    gt oldSize (of_Z 0) = true ->
    strict_eq newSize oldSize = false ->
    changeDirection newSize oldSize <> changeDirection oldSize newSize /\
    abs (sub newSize oldSize) = abs (sub oldSize newSize) /\
    forall w1 w2 : string,
      warning (checkFileSizeChange newSize oldSize threshold fileName) = Some w1 ->
      warning (checkFileSizeChange oldSize newSize threshold fileName) = Some w2 ->
      exists d1 d2 : string,
        d1 <> d2 /\
        (d1 = "increased" /\ d2 = "decreased" \/ d1 = "decreased" /\ d2 = "increased") /\
        w1 = warning_text fileName d1 (sizeDifferencePercent newSize oldSize)
               oldSize newSize /\
        w2 = warning_text fileName d2 (sizeDifferencePercent oldSize newSize)
               newSize oldSize.
Proof.
  intros newSize oldSize threshold fileName Hnew Hold Hne.
  assert (gt newSize oldSize = negb (gt oldSize newSize)) as Hflip
    by (apply gt_total; eauto using gt_not_nan_l).
  assert (changeDirection newSize oldSize <> changeDirection oldSize newSize) as Hdir
    by (unfold changeDirection; rewrite Hflip;
        destruct (gt oldSize newSize); discriminate).
  split; [exact Hdir|]. split; [apply abs_sub_swap|].
  intros w1 w2. rewrite !checkFileSizeChange_cases.
  rewrite (gt_zero_not_zero _ Hold), (gt_zero_not_zero _ Hnew).
  destruct (gt (sizeDifferencePercent newSize oldSize) threshold); [|discriminate].
  destruct (gt (sizeDifferencePercent oldSize newSize) threshold); [|discriminate].
  simpl. intros [= <-] [= <-].
  exists (changeDirection newSize oldSize), (changeDirection oldSize newSize).
  split; [exact Hdir|]. split; [|split; reflexivity].
  unfold changeDirection. rewrite Hflip. destruct (gt oldSize newSize); auto.
Qed.

End WithFormatting.

Lemma checkFileSizeChange_warns_iff_witness :
  gt (of_Z 100) (of_Z 0) = true /\
  ((warning (SizeCheck.checkFileSizeChange sample_toFixed sample_numberToString
               (of_Z 120) (of_Z 100) (of_Z 20) "a.csv") <> None <->
    gt (percentDiff_spec (of_Z 120) (of_Z 100)) (of_Z 20) = true) /\
   (strict_eq (percentDiff_spec (of_Z 120) (of_Z 100)) (of_Z 20) = true ->
    SizeCheck.checkFileSizeChange sample_toFixed sample_numberToString
      (of_Z 120) (of_Z 100) (of_Z 20) "a.csv" = mkSizeChange false None)).
Proof.
  split; [reflexivity|].
  apply (checkFileSizeChange_warns_iff sample_toFixed sample_numberToString
           (of_Z 120) (of_Z 100) (of_Z 20) "a.csv").
  reflexivity.
Defined.

(** C6 as stated fails on byte counts: from 100 to 107 bytes is a change
    of exactly 7 percent, yet against a threshold of 7 the check warns,
    because 7/100*100 evaluates to the binary64 number just above 7. *)
Lemma exact_threshold_warns_counterexample :
  (Z.abs (107 - 100) * 100 = 7 * 100)%Z /\
  gt (of_Z 100) (of_Z 0) = true /\
  SizeCheck.checkFileSizeChange sample_toFixed sample_numberToString
    (of_Z 107) (of_Z 100) (of_Z 7) "a.csv"
  = mkSizeChange true
      (Some "WARNING: File a.csv has increased in size by ?% (from ? to ? bytes)").
Proof. repeat split. Qed.

Lemma checkFileSizeChange_swap_witness :
  changeDirection (of_Z 34) (of_Z 26) <> changeDirection (of_Z 26) (of_Z 34) /\
  abs (sub (of_Z 34) (of_Z 26)) = abs (sub (of_Z 26) (of_Z 34)).
Proof.
  pose proof (checkFileSizeChange_swap sample_toFixed sample_numberToString
                (of_Z 34) (of_Z 26) (of_Z 1) "a.csv"
                eq_refl eq_refl eq_refl) as H.
  split; [exact (proj1 H) | exact (proj1 (proj2 H))].
Defined.

(** The specification's examples: a change of exactly 20 percent against
    a threshold of 20 does not warn; 26 to 34 bytes against a threshold of
    1 warns of an increase. *)
Example exactly_at_threshold :
  SizeCheck.checkFileSizeChange sample_toFixed sample_numberToString
    (of_Z 120) (of_Z 100) (of_Z 20) "a.csv" = mkSizeChange false None.
Proof. reflexivity. Qed.

Example increase_beyond_threshold :
  SizeCheck.checkFileSizeChange sample_toFixed sample_numberToString
    (of_Z 34) (of_Z 26) (of_Z 1) "a.csv"
  = mkSizeChange true
      (Some "WARNING: File a.csv has increased in size by ?% (from ? to ? bytes)").
Proof. reflexivity. Qed.

(** The percentage is the rounded binary64 value: 7/100*100 evaluates to
    the number just above 7, so 100 to 107 bytes exceeds a threshold of 7. *)
Example percent_is_rounded :
  sizeDifferencePercent (of_Z 107) (of_Z 100)
  = S754_finite false 7881299347898369 (-50) /\
  of_Z 7 = S754_finite false 7881299347898368 (-50) /\
  gt (sizeDifferencePercent (of_Z 107) (of_Z 100)) (of_Z 7) = true.
Proof. repeat split. Qed.

(** Equal sizes are labelled "decreased"; with a threshold below zero the
    label shows, and swapping equal sizes does not flip it. *)
Example equal_sizes_direction :
  changeDirection (of_Z 5) (of_Z 5) = "decreased" /\
  changed (SizeCheck.checkFileSizeChange sample_toFixed sample_numberToString
             (of_Z 5) (of_Z 5) (of_Z (-1)) "a.csv") = true.
Proof. split; reflexivity. Qed.

End SizeCheckFacts.

(** ** The fetcher: results *)

Module FetcherFacts.
Import Text Validator Num SizeCheck Fetcher FetcherSpec.

Local Open Scope list_scope.

Create HintDb returns.

(** *** The monad *)

Lemma bind_normal {A B} (m : M A) (k : A -> M B) w a w1 :
  m w = (Normal a, w1) -> bind m k w = k a w1.
Proof. unfold bind. now intros ->. Qed.

Lemma bind_throw {A B} (m : M A) (k : A -> M B) w e w1 :
  m w = (Throw e, w1) -> bind m k w = (Throw e, w1).
Proof. unfold bind. now intros ->. Qed.

Lemma tryCatch_normal {A} (m : M A) handler w a w1 :
  m w = (Normal a, w1) -> tryCatch m handler w = (Normal a, w1).
Proof. unfold tryCatch. now intros ->. Qed.

Lemma tryCatch_throw {A} (m : M A) handler w e w1 :
  m w = (Throw e, w1) -> tryCatch m handler w = handler e w1.
Proof. unfold tryCatch. now intros ->. Qed.

Lemma returns_ret {A} (a : A) : returns (ret a).
Proof. intros w. now exists a, w. Qed.

Lemma returns_bind {A B} (m : M A) (k : A -> M B) :
  returns m -> (forall a, returns (k a)) -> returns (bind m k).
Proof.
  intros Hm Hk w. destruct (Hm w) as (a & w1 & E).
  rewrite (bind_normal _ _ _ _ _ E). apply Hk.
Qed.

Lemma returns_tryCatch {A} (m : M A) handler :
  (forall e, returns (handler e)) -> returns (tryCatch m handler).
Proof.
  intros Hh w. unfold tryCatch.
  destruct (m w) as [[a|e] w1]; [now exists a, w1 | apply Hh].
Qed.

Lemma returns_console_log message : returns (console_log message).
Proof. intros w. now eexists _, _. Qed.

Lemma returns_console_error message : returns (console_error message).
Proof. intros w. now eexists _, _. Qed.

Lemma returns_forEach {A} (f : A -> M unit) xs :
  (forall x, returns (f x)) -> returns (forEach f xs).
Proof.
  intros Hf. induction xs as [|x xs IH]; simpl.
  - apply returns_ret.
  - apply returns_bind; auto.
Qed.

#[local] Hint Resolve returns_ret returns_console_log returns_console_error
  returns_forEach : returns.

Section WithEnvironment.

Context {env : Environment}.

(** *** The existence check and the clean-up *)

(** The existence check never throws and changes no file. *)
Lemma pathExists_spec p w :
  exists (b : bool) (r : option Thrown),
    pathExists p w = (Normal b, record_call (CAccess p) r w) /\
    (b = true <-> r = None) /\
    (fault (CAccess p) (length (calls w)) = NoFault ->
     b = is_file p w || is_dir p w).
Proof.
  unfold pathExists, tryCatch, bind, access, fails, succeeds, ret.
  destruct (fault (CAccess p) (length (calls w))) as [|e res].
  - destruct (is_file p w || is_dir p w).
    + exists true, None. repeat split; auto.
    + eexists false, (Some _). repeat split; auto; discriminate.
  - exists false, (Some e). repeat split; auto; discriminate.
Qed.

(** What the [catch] block does, case by case: the conversion of the
    caught value throws and nothing else happens; or the line is logged
    and the file system sees the existence check and, when that succeeds,
    one [unlink] of the temporary path. Only a string conversion makes
    the block throw. *)
Lemma downloadFile_catch_inv tempPath error w c w' :
  downloadFile_catch tempPath error w = (c, w') ->
  dirs w' = dirs w /\ requests w' = requests w /\
  ((calls w' = calls w /\ files w' = files w /\
    exists raised, thrownToString error = Throw raised /\ c = Throw raised) \/
   (exists err, calls w' = calls w ++ [(CAccess tempPath, Some err)] /\
                files w' = files w /\ c = Normal failure) \/
   (calls w' = calls w ++ [(CAccess tempPath, None); (CUnlink tempPath, None)] /\
    files w' = delete tempPath (files w) /\ c = Normal failure) \/
   (exists err,
      calls w' = calls w ++ [(CAccess tempPath, None); (CUnlink tempPath, Some err)] /\
      files w' = files w /\
      (c = Normal failure /\ message_printable err \/
       exists raised, errorMessageOf err = Some (Throw raised) /\ c = Throw raised))).
Proof.
  unfold downloadFile_catch, cleanup_try, cleanup_catch, pathExists,
    tryCatch, bind, evaluate, access, unlink, fails, succeeds, ret, console_log,
    console_error, message_printable.
  intros H. repeat (case_match; simplify_eq/=).
  all: rewrite <- ?app_assoc; simpl.
  all: split; [reflexivity|]; split; [reflexivity|].
  all: try (left; repeat split; eauto; fail).
  all: try (right; left; eexists; repeat split; eauto; fail).
  all: try (right; right; left; repeat split; eauto; fail).
  all: right; right; right; eexists; split; [reflexivity|]; split; [reflexivity|].
  all: try (right; eexists; split; [eassumption | reflexivity]).
  all: left; split; [reflexivity|]; intros raised; first [congruence | discriminate].
Qed.

(** A [catch] block that returns, returns the failure outcome. *)
Lemma downloadFile_catch_normal tempPath error w r w' :
  downloadFile_catch tempPath error w = (Normal r, w') ->
  r = failure /\ printable error /\
  (files w' = files w \/ files w' = delete tempPath (files w)).
Proof.
  intros H. assert (printable error) as Hp.
  { revert H. unfold downloadFile_catch, bind, evaluate, printable.
    destruct (thrownToString error); [eauto | discriminate]. }
  apply downloadFile_catch_inv in H
    as (_ & _ & [(_ & _ & raised & _ & [=])
                |[(err & _ & Hf & [= <-])
                 |[(_ & Hf & [= <-])
                  |(err & _ & Hf & [([= <-] & _)|(raised & _ & [=])])]]]);
    auto.
Qed.

(** A caught value that has a string conversion, and clean-up errors
    whose messages have one: the [catch] block returns. *)
Lemma downloadFile_catch_returns tempPath error w :
  printable error ->
  (forall n e res, fault (CUnlink tempPath) n = Fail e res -> message_printable e) ->
  exists w', downloadFile_catch tempPath error w = (Normal failure, w').
Proof.
  intros [shown Hshown] Hfaults.
  unfold downloadFile_catch, cleanup_try, cleanup_catch, pathExists,
    tryCatch, bind, evaluate, access, unlink, fails, succeeds, ret, console_log,
    console_error.
  rewrite Hshown. simpl.
  repeat (case_match; simplify_eq/=); eauto.
  all: match goal with
       | H : fault (CUnlink _) _ = Fail ?e _, E : errorMessageOf ?e = Some (Throw ?r) |- _ =>
           now destruct (Hfaults _ _ _ H r)
       end.
Qed.

#[local] Arguments validateCSVContent : simpl never.
#[local] Arguments checkFileSizeChange : simpl never.

(** When the [try] block completes normally it either returned early,
    having touched no file, or it committed: the validated content is at
    the final path and the temporary file was renamed away. *)
Lemma downloadFile_try_normal url outputPath tempPath threshold fetchFn w r w1 :
  downloadFile_try url outputPath tempPath threshold fetchFn w = (Normal r, w1) ->
  (r = failure /\ files w1 = files w /\ calls w1 = calls w /\ dirs w1 = dirs w) \/
  (success r = true /\
   exists content,
     text_of fetchFn url w = Some content /\
     isValid (validateCSVContent content) = true /\
     files w1 = <[outputPath := content]>
                  (delete tempPath (<[tempPath := content]> (files w)))).
Proof.
  unfold downloadFile_try, text_of, pathExists, bind, tryCatch, callTransport, await,
    ret, console_log, console_error, writeFile, stat_size, access, rename,
    fails, succeeds.
  intros H. repeat (case_match; simplify_eq/=); auto.
  all: right; split; [reflexivity|]; eexists; split; [reflexivity|].
  all: split; [by destruct (isValid _)|].
  all: simplify_map_eq; reflexivity.
Qed.

(** [downloadFile], with its first console line split off. *)
Lemma downloadFile_unfold url outputPath tempPath threshold fetchFn w :
  downloadFile url outputPath tempPath threshold fetchFn w =
  tryCatch
    (downloadFile_try url outputPath tempPath
       (default (sizeChangeThresholdPercent DEFAULT_CONFIG) threshold)
       (default globalFetch fetchFn))
    (downloadFile_catch tempPath) (started url w).
Proof. reflexivity. Qed.

(** A refused request ends the [try] block before any file-system call;
    what it throws is what the transport threw. *)
Lemma downloadFile_try_refused url outputPath tempPath threshold fetchFn w :
  transport_refuses fetchFn url w ->
  exists c w1,
    downloadFile_try url outputPath tempPath threshold fetchFn w = (c, w1) /\
    (c = Normal failure \/
     exists e, c = Throw e /\ fetchFn url (requests w) = Throw e) /\
    files w1 = files w /\ calls w1 = calls w /\ dirs w1 = dirs w.
Proof.
  unfold transport_refuses, downloadFile_try, bind, callTransport, ret,
    console_error.
  destruct (fetchFn url (requests w)) as [response|e]; simpl.
  - intros ->. simpl. eexists _, _. split; [reflexivity|]. auto.
  - intros _. eexists _, _. split; [reflexivity|]. eauto 8.
Qed.

(** With the existence check and the [unlink] left alone by the
    environment, a [catch] block that returns leaves no file at the
    temporary path. *)
Lemma downloadFile_catch_removes tempPath error w r w' :
  fault (CAccess tempPath) (length (calls w)) = NoFault ->
  fault (CUnlink tempPath) (S (length (calls w))) = NoFault ->
  downloadFile_catch tempPath error w = (Normal r, w') ->
  files w' !! tempPath = None.
Proof.
  intros Ha Hu.
  unfold downloadFile_catch, cleanup_try, cleanup_catch, pathExists,
    tryCatch, bind, evaluate, access, unlink, fails, succeeds, ret, console_log,
    console_error, is_file.
  destruct (thrownToString error); [|discriminate]. simpl.
  rewrite Ha.
  destruct (files w !! tempPath) as [data|] eqn:Hfile; simpl.
  - rewrite length_app, Nat.add_1_r, Hu, Hfile. simpl.
    intros [= <- <-]. simpl. apply lookup_delete_eq.
  - destruct (is_dir tempPath _) eqn:Hdir; simpl.
    + rewrite length_app, Nat.add_1_r, Hu, Hfile. simpl.
      unfold is_dir in *. simpl in *. rewrite Hdir. simpl.
      intros [= <- <-]. exact Hfile.
    + intros [= <- <-]. exact Hfile.
Qed.

(** When the [try] block throws after its [writeFile] succeeded, the
    temporary file is still there: nothing between the write and the
    rename removes it. *)
Lemma downloadFile_try_throw_keeps_temp
    url outputPath tempPath threshold fetchFn w error w1 content :
  downloadFile_try url outputPath tempPath threshold fetchFn w = (Throw error, w1) ->
  (CWriteFile tempPath content, None) ∈ drop (length (calls w)) (calls w1) ->
  files w1 !! tempPath = Some content /\ is_file tempPath w1 = true.
Proof.
  unfold downloadFile_try, pathExists, bind, tryCatch, callTransport, await,
    ret, console_log, console_error, writeFile, stat_size, access, rename,
    fails, succeeds, is_file.
  intros H Hin. repeat (case_match; simplify_eq/=).
  all: rewrite <- ?app_assoc, ?drop_app_length, ?drop_all in Hin; simpl in Hin.
  all: repeat (apply elem_of_cons in Hin as [Hin|Hin]; simplify_eq).
  all: try (now apply elem_of_nil in Hin).
  all: rewrite lookup_insert_eq; split; [reflexivity|].
  all: apply bool_decide_eq_true; eauto.
Qed.

(** A response that is not [ok] (a 404, say) ends the call before any
    file-system call, whatever the two paths are. *)
Lemma downloadFile_not_ok url outputPath tempPath threshold fetchFn w response :
  default globalFetch fetchFn url (requests w) = Normal response ->
  ok response = false ->
  exists w',
    downloadFile url outputPath tempPath threshold fetchFn w = (Normal failure, w') /\
    files w' = files w /\ dirs w' = dirs w /\ calls w' = calls w.
Proof.
  intros Hresp Hok. rewrite downloadFile_unfold.
  unfold tryCatch, downloadFile_try, bind, callTransport, started; simpl.
  rewrite Hresp, Hok. simpl. eexists. split; [reflexivity|]. auto.
Qed.

(** C2, amended: when the transport throws or answers with a response
    that is not [ok], a thrown value having a string conversion (as the
    message of any error the clean-up's [unlink] is failed with),
    [downloadFile] returns [{success: false, warning: null}] and does not
    throw; no file gains or changes content (at most the file at the
    temporary path is deleted, by the clean-up after a throw), the only
    file-system calls are the existence check and the [unlink] of the
    temporary path, and the final path is untouched provided it is not
    also the temporary path. *)
Theorem downloadFile_transport_refused :
  forall (url outputPath tempPath : string) (threshold : option number)
         (fetchFn : option Transport) (w : World),
    transport_refuses (default globalFetch fetchFn) url w ->
    tempPath <> outputPath ->
    (forall e, default globalFetch fetchFn url (requests w) = Throw e ->
               printable e) ->
    (forall n e res, fault (CUnlink tempPath) n = Fail e res ->
                     message_printable e) ->
    exists w',
      downloadFile url outputPath tempPath threshold fetchFn w = (Normal failure, w') /\
      files w' !! outputPath = files w !! outputPath /\
      (files w' = files w \/ files w' = delete tempPath (files w)) /\
      (forall c r, (c, r) ∈ drop (length (calls w)) (calls w') ->
                   c = CAccess tempPath \/ c = CUnlink tempPath).
Proof.
  intros url outputPath tempPath threshold fetchFn w Href Hne Hprint Hfaults.
  rewrite downloadFile_unfold.
  destruct (downloadFile_try_refused url outputPath tempPath
              (default (sizeChangeThresholdPercent DEFAULT_CONFIG) threshold)
              (default globalFetch fetchFn) (started url w) Href)
    as (c & w1 & Etry & Hc & Hfiles & Hcalls & _).
  change (files (started url w)) with (files w) in Hfiles.
  change (calls (started url w)) with (calls w) in Hcalls.
  change (requests (started url w)) with (requests w) in Hc.
  destruct Hc as [->|(e & -> & Hthrown)].
  - rewrite (tryCatch_normal _ _ _ _ _ Etry). exists w1.
    rewrite Hfiles, Hcalls, drop_all. repeat split; auto.
    intros c r Hin. now apply elem_of_nil in Hin.
  - rewrite (tryCatch_throw _ _ _ _ _ Etry).
    destruct (downloadFile_catch_returns tempPath e w1 (Hprint e Hthrown) Hfaults)
      as (w' & Ecatch).
    exists w'. split; [exact Ecatch|].
    apply downloadFile_catch_inv in Ecatch as (_ & _ & Hcases).
    rewrite Hfiles, Hcalls in Hcases.
    destruct Hcases
      as [(_ & _ & raised & _ & [=])
         |[(err & Hc & Hf & _)|[(Hc & Hf & _)|(err & Hc & Hf & _)]]];
      rewrite Hc, Hf, drop_app_length.
    + repeat split; auto. intros c r Hin.
      apply list_elem_of_singleton in Hin. left. congruence.
    + rewrite lookup_delete_ne by exact Hne. repeat split; auto.
      intros c r Hin. rewrite !elem_of_cons in Hin.
      destruct Hin as [Hin|[Hin|Hin]]; [left|right|]; try congruence.
      now apply elem_of_nil in Hin.
    + repeat split; auto. intros c r Hin. rewrite !elem_of_cons in Hin.
      destruct Hin as [Hin|[Hin|Hin]]; [left|right|]; try congruence.
      now apply elem_of_nil in Hin.
Qed.

(** C3, amended: with the temporary path distinct from the final path and
    with the clean-up's existence check and [unlink] of the temporary path
    not failed by the environment, whenever [downloadFile] returns, either
    no file is at the temporary path (renamed away or deleted), or the
    call returned early without touching any file (the temporary file was
    never created); so with no temporary file before the call there is
    none after it. *)
Theorem downloadFile_temp_removed :
  forall (url outputPath tempPath : string) (threshold : option number)
         (fetchFn : option Transport) (w : World) (r : FileOutcome) (w' : World),
    tempPath <> outputPath ->
    (forall n, fault (CAccess tempPath) n = NoFault) ->
    (forall n, fault (CUnlink tempPath) n = NoFault) ->
    downloadFile url outputPath tempPath threshold fetchFn w = (Normal r, w') ->
    (files w' !! tempPath = None \/ (r = failure /\ files w' = files w)) /\
    (files w !! tempPath = None -> files w' !! tempPath = None).
Proof.
  intros url outputPath tempPath threshold fetchFn w r w' Hne Ha Hu.
  rewrite downloadFile_unfold. unfold tryCatch.
  destruct (downloadFile_try _ _ _ _ _ (started url w)) as [[r0|e] w1] eqn:Etry.
  - intros [= <- <-].
    apply downloadFile_try_normal in Etry
      as [(-> & Hf & _)|(_ & content & _ & _ & Hf)].
    + change (files (started url w)) with (files w) in Hf.
      rewrite Hf. auto.
    + assert (files w1 !! tempPath = None) as Hgone
        by (rewrite Hf, lookup_insert_ne, lookup_delete_eq; auto).
      auto.
  - intros Ecatch.
    pose proof (downloadFile_catch_removes tempPath e w1 r w' (Ha _) (Hu _) Ecatch).
    auto.
Qed.

(** C8, amended: when a step of the [try] block throws after the
    temporary file was written, the thrown value having a string
    conversion, and the environment does not fail the existence check of
    the [catch] block, [downloadFile] calls [unlink] on the temporary path;
    whether that succeeds ([r = None]) or throws ([r = Some err], the
    message of the error having a string conversion), [downloadFile]
    returns [{success: false, warning: null}] and does not throw; a failed
    deletion is reported on the error console and leaves the file. *)
Theorem downloadFile_cleanup_after_throw :
  forall (url outputPath tempPath : string) (threshold : option number)
         (fetchFn : option Transport) (w : World) (error : Thrown) (w1 : World)
         (content : string),
    downloadFile_try url outputPath tempPath
      (default (sizeChangeThresholdPercent DEFAULT_CONFIG) threshold)
      (default globalFetch fetchFn) (started url w) = (Throw error, w1) ->
    (CWriteFile tempPath content, None) ∈ drop (length (calls w)) (calls w1) ->
    printable error ->
    (forall n, fault (CAccess tempPath) n = NoFault) ->
    (forall n e res, fault (CUnlink tempPath) n = Fail e res ->
                     message_printable e) ->
    exists (r : option Thrown) (w' : World),
      downloadFile url outputPath tempPath threshold fetchFn w = (Normal failure, w') /\
      calls w' = calls w1 ++ [(CAccess tempPath, None); (CUnlink tempPath, r)] /\
      (r = None -> files w' = delete tempPath (files w1)) /\
      (forall err, r = Some err ->
         files w' = files w1 /\
         exists message,
           last (console w') = Some (LevelError, message) /\
           message = match errorMessageOf err with
                     | Some (Normal shown) => "Error cleaning up temp file: " +:+ shown
                     | _ => "Unknown error during cleanup"
                     end).
Proof.
  intros url outputPath tempPath threshold fetchFn w error w1 content Etry Hwrite
    [shown Hshown] Haccess Hfaults.
  destruct (downloadFile_try_throw_keeps_temp _ _ _ _ _ _ _ _ content Etry Hwrite)
    as [Hthere Hfile].
  rewrite downloadFile_unfold, (tryCatch_throw _ _ _ _ _ Etry).
  unfold downloadFile_catch, cleanup_try, cleanup_catch, pathExists,
    tryCatch, bind, evaluate, access, unlink, fails, succeeds, ret, console_log,
    console_error.
  rewrite Hshown. simpl. rewrite Haccess.
  change (is_file tempPath (mkWorld (files w1) (dirs w1) (calls w1)
            (console w1 ++ _) (requests w1))) with (is_file tempPath w1).
  rewrite Hfile. simpl. rewrite Hthere.
  destruct (fault (CUnlink tempPath) _) as [|e res] eqn:Hfault; simpl.
  - exists None. eexists. split; [reflexivity|]. simpl.
    rewrite <- app_assoc. repeat split; auto; discriminate.
  - pose proof (Hfaults _ _ _ Hfault) as Hmsg. unfold message_printable in Hmsg.
    destruct (errorMessageOf e) as [[shown'|raised]|] eqn:Hmessage; simpl.
    + eexists (Some _); eexists; split; [reflexivity|]; simpl.
      rewrite <- app_assoc; split; [reflexivity|]; split; [discriminate|].
      intros err [= <-]; split; [reflexivity|].
      eexists; rewrite last_snoc, Hmessage; eauto.
    + now destruct (Hmsg raised).
    + eexists (Some _); eexists; split; [reflexivity|]; simpl.
      rewrite <- app_assoc; split; [reflexivity|]; split; [discriminate|].
      intros err [= <-]; split; [reflexivity|].
      eexists; rewrite last_snoc, Hmessage; eauto.
Qed.
(** *** The loop over the templates *)

(** A warning [downloadFile] returns is never the empty string, so the
    truthiness test of [fetchData] is a test for null. *)
Lemma downloadFile_try_warning url outputPath tempPath threshold fetchFn w r w1 :
  downloadFile_try url outputPath tempPath threshold fetchFn w = (Normal r, w1) ->
  outcome_warning r <> Some "".
Proof.
  unfold downloadFile_try, pathExists, bind, tryCatch, callTransport, await,
    ret, console_log, console_error, writeFile, stat_size, access, rename,
    fails, succeeds.
  intros H. repeat (case_match; simplify_eq/=); congruence.
Qed.

Lemma downloadFile_warning url outputPath tempPath threshold fetchFn w r w' :
  downloadFile url outputPath tempPath threshold fetchFn w = (Normal r, w') ->
  outcome_warning r <> Some "".
Proof.
  rewrite downloadFile_unfold. unfold tryCatch.
  destruct (downloadFile_try _ _ _ _ _ (started url w)) as [[r0|e] w1] eqn:Etry.
  - intros [= <- <-]. eapply downloadFile_try_warning, Etry.
  - intros Ecatch. apply downloadFile_catch_normal in Ecatch as (-> & _).
    discriminate.
Qed.

(** One round of the loop: it completes as [downloadFile] does; when that
    returns, its outcome goes to exactly one of [downloadedFiles] and
    [skippedFiles]; when that throws, the round throws. *)
Lemma processTemplate_spec config dateStr fetchFn lists template w :
  exists c w',
    downloadFile (template_url config dateStr template)
      (template_outputPath config template) (template_tempPath config template)
      (Some (sizeChangeThresholdPercent config)) (Some fetchFn) w
    = (c, w') /\
    processTemplate config dateStr fetchFn lists template w
    = (match c with
       | Normal result => Normal (add_outcome config lists template result)
       | Throw e => Throw e
       end, w').
Proof.
  destruct (downloadFile (template_url config dateStr template)
              (template_outputPath config template)
              (template_tempPath config template)
              (Some (sizeChangeThresholdPercent config)) (Some fetchFn) w)
    as [[result|e] w'] eqn:E.
  - exists (Normal result), w'. split; [reflexivity|].
    unfold processTemplate. rewrite (bind_normal _ _ _ _ _ E).
    pose proof (downloadFile_warning _ _ _ _ _ _ _ _ E) as Hw.
    unfold add_outcome. destruct (success result); [|reflexivity].
    destruct (outcome_warning result) as [[|c text]|]; try reflexivity.
    + congruence.
    + simpl. now rewrite app_nil_r.
  - exists (Throw e), w'. split; [reflexivity|].
    unfold processTemplate. now rewrite (bind_throw _ _ _ _ _ E).
Qed.

(** The whole loop: it runs [downloadFile] for every template, or stops
    at the first template for which [downloadFile] throws. *)
Lemma for_of_processTemplate config dateStr fetchFn templates lists w :
  (exists results w',
     processed config dateStr fetchFn w templates results w' /\
     for_of (processTemplate config dateStr fetchFn) templates lists w
     = (Normal (fold_left (fun acc run => add_outcome config acc (fst run) (snd run))
                          (zip templates results) lists), w')) \/
  (exists e w',
     aborted config dateStr fetchFn w templates e w' /\
     for_of (processTemplate config dateStr fetchFn) templates lists w
     = (Throw e, w')).
Proof.
  revert lists w. induction templates as [|template rest IH]; intros lists w.
  - left. exists [], w. split; [constructor | reflexivity].
  - destruct (processTemplate_spec config dateStr fetchFn lists template w)
      as ([result|e] & w1 & Edl & Estep).
    + destruct (IH (add_outcome config lists template result) w1)
        as [(results & w2 & Hrest & Eloop)|(e & w2 & Hrest & Eloop)].
      * left. exists (result :: results), w2.
        split; [econstructor; eassumption|].
        simpl. now rewrite (bind_normal _ _ _ _ _ Estep).
      * right. exists e, w2. split; [eapply aborted_later; eassumption|].
        simpl. now rewrite (bind_normal _ _ _ _ _ Estep).
    + right. exists e, w1. split; [now apply aborted_here|].
      simpl. now rewrite (bind_throw _ _ _ _ _ Estep).
Qed.

Lemma processed_length config dateStr fetchFn w templates results w' :
  processed config dateStr fetchFn w templates results w' ->
  length results = length templates.
Proof. induction 1; simpl; congruence. Qed.

(** The accumulated lists are the three partitions. *)
Lemma fold_add_outcome config runs lists :
  fold_left (fun acc run => add_outcome config acc (fst run) (snd run)) runs lists
  = mkDownloadResult (downloadedFiles lists ++ downloaded_of config runs)
                     (skippedFiles lists ++ skipped_of runs)
                     (fileSizeWarnings lists ++ warnings_of runs).
Proof.
  revert lists. induction runs as [|[template result] runs IH]; intros lists.
  - simpl. unfold downloaded_of, skipped_of, warnings_of. simpl.
    rewrite !app_nil_r. now destruct lists.
  - simpl. rewrite IH. unfold add_outcome, downloaded_of, skipped_of, warnings_of.
    simpl. destruct (success result); simpl; now rewrite <- ?app_assoc.
Qed.

Lemma partition_lengths config runs :
  length (downloaded_of config runs) + length (skipped_of runs) = length runs.
Proof.
  unfold downloaded_of, skipped_of. rewrite !length_map.
  induction runs as [|[template result] runs IH]; simpl; [reflexivity|].
  destruct (success result); simpl; lia.
Qed.

Lemma printSummary_returns lists : returns (printSummary lists).
Proof.
  unfold printSummary.
  repeat (apply returns_bind; [|intros _]); auto with returns.
  destruct (0 <? _)%nat; auto with returns.
  apply returns_bind; auto with returns.
Qed.

End WithEnvironment.

End FetcherFacts.

(** ** The fetcher: worked runs *)

Module FetcherRuns.
Import Text Validator Num SizeCheck Fetcher FetcherSpec FetcherFacts Samples.
Import MoreSamples.

Local Open Scope list_scope.

(** C2 as stated fails when the temporary path is the final path: the
    transport throws, the clean-up finds the file and deletes it, and the
    file at the final path is gone. *)
Lemma downloadFile_alias_counterexample :
  transport_refuses network_error "u" (world_with "a.csv" "x,y") /\
  files (world_with "a.csv" "x,y") !! "a.csv" = Some "x,y" /\
  fst (@downloadFile (sample_env no_faults) "u" "a.csv" "a.csv" None
         (Some network_error) (world_with "a.csv" "x,y"))
  = Normal failure /\
  files (snd (@downloadFile (sample_env no_faults) "u" "a.csv" "a.csv" None
                (Some network_error) (world_with "a.csv" "x,y"))) !! "a.csv"
  = None.
Proof. repeat split; vm_compute; reflexivity. Qed.

Lemma downloadFile_transport_refused_witness :
  exists w',
    @downloadFile (sample_env unlink_fails) "u" "out.csv" "out.csv.tmp" None
      (Some network_error) (world_with "out.csv" "old,data")
    = (Normal failure, w') /\
    files w' !! "out.csv" = Some "old,data".
Proof.
  destruct (@downloadFile_transport_refused (sample_env unlink_fails)
              "u" "out.csv" "out.csv.tmp" None (Some network_error)
              (world_with "out.csv" "old,data")
              I ltac:(discriminate)
              ltac:(intros e [= <-]; eexists; reflexivity)
              ltac:(intros n e res H raised; destruct e as [| |[] []];
                    vm_compute in H; try discriminate; injection H as <- <-;
                    discriminate))
    as (w' & E & Hout & _).
  exists w'. split; [exact E|]. rewrite Hout. reflexivity.
Defined.

(** C3 as stated fails: the download is written to the temporary file,
    the rename fails, the deletion of the temporary file fails too, and
    [downloadFile] returns with the temporary file on disk next to the old
    final file. *)
Lemma downloadFile_temp_remains_counterexample :
  files (world_with "out.csv" "old,data") !! "out.csv.tmp" = None /\
  fst (@downloadFile (sample_env rename_and_unlink_fail) "u" "out.csv" "out.csv.tmp"
         None (Some csv_server) (world_with "out.csv" "old,data"))
  = Normal failure /\
  files (snd (@downloadFile (sample_env rename_and_unlink_fail) "u" "out.csv"
                "out.csv.tmp" None (Some csv_server)
                (world_with "out.csv" "old,data"))) !! "out.csv.tmp"
  = Some csv_body /\
  files (snd (@downloadFile (sample_env rename_and_unlink_fail) "u" "out.csv"
                "out.csv.tmp" None (Some csv_server)
                (world_with "out.csv" "old,data"))) !! "out.csv"
  = Some "old,data".
Proof. repeat split; vm_compute; reflexivity. Qed.

Lemma downloadFile_temp_removed_witness :
  files (snd (@downloadFile (sample_env rename_fails) "u" "out.csv" "out.csv.tmp"
                None (Some csv_server) (world_with "out.csv" "old,data")))
    !! "out.csv.tmp" = None.
Proof.
  apply (@downloadFile_temp_removed (sample_env rename_fails)
           "u" "out.csv" "out.csv.tmp" None (Some csv_server)
           (world_with "out.csv" "old,data") failure
           (snd (@downloadFile (sample_env rename_fails) "u" "out.csv" "out.csv.tmp"
                   None (Some csv_server) (world_with "out.csv" "old,data")))
           ltac:(discriminate) (fun n => eq_refl) (fun n => eq_refl)
           ltac:(vm_compute; reflexivity)).
  reflexivity.
Defined.

(** C8 as stated fails: the download is written to the temporary file,
    the rename throws, and the existence check of the [catch] block is
    failed by the environment; [downloadFile] takes the temporary file for
    absent, makes no [unlink] call, and returns with the file on disk. *)
Lemma downloadFile_no_unlink_counterexample :
  fst (@downloadFile (sample_env rename_and_temp_access_fail) "u" "out.csv"
         "out.csv.tmp" None (Some csv_server) (world_with "out.csv" "old,data"))
  = Normal failure /\
  calls (snd (@downloadFile (sample_env rename_and_temp_access_fail) "u" "out.csv"
                "out.csv.tmp" None (Some csv_server)
                (world_with "out.csv" "old,data")))
  = [ (CWriteFile "out.csv.tmp" csv_body, None);
      (CStat "out.csv.tmp", None);
      (CAccess "out.csv", None);
      (CStat "out.csv", None);
      (CRename "out.csv.tmp" "out.csv",
       Some (ErrorObject "Error" "EXDEV: cross-device link not permitted"));
      (CAccess "out.csv.tmp", Some (ErrorObject "Error" "EACCES: permission denied")) ] /\
  files (snd (@downloadFile (sample_env rename_and_temp_access_fail) "u" "out.csv"
                "out.csv.tmp" None (Some csv_server)
                (world_with "out.csv" "old,data"))) !! "out.csv.tmp"
  = Some csv_body.
Proof. repeat split; vm_compute; reflexivity. Qed.

Lemma downloadFile_cleanup_after_throw_witness :
  exists (r : option Thrown) (w' : World),
    @downloadFile (sample_env rename_and_unlink_fail) "u" "out.csv" "out.csv.tmp"
      None (Some csv_server) (world_with "out.csv" "old,data")
    = (Normal failure, w') /\
    (CUnlink "out.csv.tmp", r) ∈ calls w'.
Proof.
  destruct (@downloadFile_cleanup_after_throw (sample_env rename_and_unlink_fail)
              "u" "out.csv" "out.csv.tmp" None (Some csv_server)
              (world_with "out.csv" "old,data")
              (ErrorObject "Error" "EXDEV: cross-device link not permitted")
              (snd (@downloadFile_try (sample_env rename_and_unlink_fail)
                      "u" "out.csv" "out.csv.tmp" (of_Z 20) csv_server
                      (started "u" (world_with "out.csv" "old,data"))))
              csv_body
              ltac:(vm_compute; reflexivity)
              ltac:(vm_compute; constructor)
              ltac:(eexists; reflexivity)
              (fun n => eq_refl)
              ltac:(intros n e res H raised; destruct e as [| |[] []];
                    vm_compute in H; try discriminate; injection H as <- <-;
                    discriminate))
    as (r & w' & E & Hcalls & _).
  exists r, w'. split; [exact E|]. rewrite Hcalls.
  apply elem_of_app. right. apply elem_of_cons. right. apply elem_of_cons. now left.
Defined.

(** C4 fails on this run: the transport rejects the request of the first
    template with a Symbol; the log line of the [catch] block cannot
    convert it to text and throws a [TypeError], [downloadFile] throws,
    and [fetchData], which awaits it outside any [try], throws as well:
    one request was made, the second template was never tried and no
    list is returned. With an [Error] as the rejection the same run skips
    the first template and downloads the second. *)
Theorem fetchData_aborts_on_symbol_rejection :
  fst (@fetchData (sample_env no_faults) (first_rejected thrownSymbol)
         (world_with_dir "data"))
  = Throw symbolTypeError /\
  requests (snd (@fetchData (sample_env no_faults) (first_rejected thrownSymbol)
                   (world_with_dir "data"))) = 1 /\
  files (snd (@fetchData (sample_env no_faults) (first_rejected thrownSymbol)
                (world_with_dir "data"))) !! "data/test1.csv" = None /\
  fst (@fetchData (sample_env no_faults)
         (first_rejected (ErrorObject "Error" "Network error"))
         (world_with_dir "data"))
  = Normal (mkDownloadResult ["data/test1.csv"%string] ["bad.csv"%string] []).
Proof. repeat split; vm_compute; reflexivity. Qed.

(** The same rejection, seen from [downloadFile]: it throws the
    [TypeError] of the conversion and makes no file-system call, so a
    temporary file left by an earlier run is not cleaned up. *)
Example downloadFile_throws_on_symbol_rejection :
  @downloadFile (sample_env no_faults) "u" "out.csv" "out.csv.tmp" None
    (Some symbol_rejection) (world_with "out.csv.tmp" "stale")
  = (Throw symbolTypeError,
     mkWorld {[ "out.csv.tmp" := "stale"%string ]} ∅ []
       [(LevelLog, "Attempting to download u"%string)] 1).
Proof. vm_compute. reflexivity. Qed.

(** The run of [test/cleanup.test.ts]: a temporary file is there, the
    transport throws and [unlink] fails; the result is a failure, the
    error is on the error console and the temporary file stays. *)
Example cleanup_failure_run :
  fst (@downloadFile (sample_env unlink_fails) "https://example.com/data.csv"
         "output.csv" "output.csv.tmp" (Some (of_Z 20)) (Some network_error)
         (world_with "output.csv.tmp" "test content"))
  = Normal failure /\
  last (console (snd (@downloadFile (sample_env unlink_fails)
                        "https://example.com/data.csv"
                        "output.csv" "output.csv.tmp" (Some (of_Z 20))
                        (Some network_error)
                        (world_with "output.csv.tmp" "test content"))))
  = Some (LevelError, "Error cleaning up temp file: Disk error"%string) /\
  files (snd (@downloadFile (sample_env unlink_fails) "https://example.com/data.csv"
                "output.csv" "output.csv.tmp" (Some (of_Z 20)) (Some network_error)
                (world_with "output.csv.tmp" "test content"))) !! "output.csv.tmp"
  = Some "test content".
Proof. repeat split; vm_compute; reflexivity. Qed.

(** A temporary file left by an earlier run survives a 404: the early
    return does no clean-up. *)
Example stale_temp_survives_404 :
  fst (@downloadFile (sample_env no_faults) "u" "out.csv" "out.csv.tmp" None
         (Some not_found) (world_with "out.csv.tmp" "stale"))
  = Normal failure /\
  files (snd (@downloadFile (sample_env no_faults) "u" "out.csv" "out.csv.tmp" None
                (Some not_found) (world_with "out.csv.tmp" "stale"))) !! "out.csv.tmp"
  = Some "stale".
Proof. repeat split; vm_compute; reflexivity. Qed.

(** The first end-to-end property of the specification: a 200 response
    with a two-line CSV body ends at the final path, without a warning. *)
Example successful_download_run :
  fst (@downloadFile (sample_env no_faults) "u" "out.csv" "out.csv.tmp"
         (Some (of_Z 20)) (Some csv_server) empty_world)
  = Normal (mkOutcome true None) /\
  files (snd (@downloadFile (sample_env no_faults) "u" "out.csv" "out.csv.tmp"
                (Some (of_Z 20)) (Some csv_server) empty_world))
  = {[ "out.csv" := csv_body ]}.
Proof. split; vm_compute; reflexivity. Qed.

(** Isolation: the failing template is skipped, the one after it is
    downloaded. *)
Example isolation_run :
  fst (@fetchData (sample_env no_faults) two_templates (world_with_dir "data"))
  = Normal (mkDownloadResult ["data/test1.csv"%string] ["404.csv"%string] []).
Proof. vm_compute. reflexivity. Qed.

End FetcherRuns.

(** ** The content validator: further results *)

Module ValidatorMore.
Import Text Validator ValidatorSpec TextFacts ValidatorFacts.

Lemma append_assoc (a b c : string) : (a +:+ b) +:+ c = a +:+ b +:+ c.
Proof.
  induction a as [|x a IH]; [reflexivity|].
  change (String x ((a +:+ b) +:+ c) = String x (a +:+ b +:+ c)).
  now rewrite IH.
Qed.

Lemma substring_of_extend pat s pre post :
  substring_of pat s -> substring_of pat (pre +:+ s +:+ post).
Proof.
  intros (p & q & ->). exists (pre +:+ p), (q +:+ post).
  now rewrite !append_assoc.
Qed.

Lemma has_char_extend c s pre post :
  has_char c s -> has_char c (pre +:+ s +:+ post).
Proof.
  intros (p & q & ->). exists (pre +:+ p), (q +:+ post).
  rewrite !append_assoc. reflexivity.
Qed.

(** The first piece of [split] is a prefix of the string. *)
Lemma split_lines_head s l ls :
  split_lines s = l :: ls -> exists post, s = l +:+ post.
Proof.
  revert l ls. induction s as [|c s IH]; intros l ls; simpl.
  - intros [= <- <-]. now exists "".
  - destruct (Ascii.eqb c LF).
    + intros [= <- <-]. now exists (String c s).
    + destruct (split_lines s) as [|l' ls'] eqn:E.
      * now destruct (split_lines_nonempty s).
      * intros [= <- <-]. destruct (IH l' ls' eq_refl) as (post & ->).
        now exists post.
Qed.

(** Every piece of [split] is a substring of the string. *)
Lemma split_lines_substring s line :
  In line (split_lines s) -> substring_of line s.
Proof.
  revert line. induction s as [|c s IH]; intros line; simpl.
  - intros [<-|[]]. now exists "", "".
  - destruct (Ascii.eqb c LF).
    + intros [<-|H]; [now exists "", (String c s)|].
      destruct (IH line H) as (pre & post & ->).
      now exists (String c pre), post.
    + destruct (split_lines s) as [|l ls] eqn:E.
      * now destruct (split_lines_nonempty s).
      * intros [<-|H].
        -- destruct (split_lines_head s l ls E) as (post & ->).
           now exists "", post.
        -- destruct (IH line (or_intror H)) as (pre & post & ->).
           now exists (String c pre), post.
Qed.

Lemma In_slice0 {A} n (arr : list A) x : In x (slice0 n arr) -> In x arr.
Proof.
  unfold slice0. revert arr. induction n as [|n IH]; intros [|y arr]; simpl;
    try tauto.
  intros [->|H]; auto.
Qed.

(** The pieces cut from the first [n] line feeds do not depend on what
    follows. *)
Lemma slice0_split_lines_app n pre post :
  n <= count_LF pre ->
  slice0 n (split_lines (pre +:+ post)) = slice0 n (split_lines pre).
Proof.
  unfold slice0. revert n. induction pre as [|c pre IH]; intros n; simpl.
  - intros Hn. assert (n = 0) as -> by lia. reflexivity.
  - destruct (Ascii.eqb c LF).
    + destruct n as [|n]; [reflexivity|]. intros Hn. simpl.
      f_equal. apply IH. lia.
    + intros Hn. destruct n as [|n]; [now destruct (split_lines _), (split_lines _)|].
      specialize (IH (S n) Hn).
      destruct (split_lines (pre +:+ post)) as [|l1 ls1] eqn:E1;
        [now destruct (split_lines_nonempty (pre +:+ post))|].
      destruct (split_lines pre) as [|l2 ls2] eqn:E2;
        [now destruct (split_lines_nonempty pre)|].
      simpl in *. now injection IH as -> ->.
Qed.

(** X1: [isValidCsv] never looks past the third line feed: whatever
    follows a text that holds three line feeds does not change its
    answer, and for content free of HTML markers the same holds of
    [validateCSVContent]. *)
Theorem isValidCsv_ignores_tail :
  forall pre post : string,
    3 <= count_LF pre ->
    isValidCsv (pre +:+ post) = isValidCsv pre /\
    (isHtmlContent (pre +:+ post) = false ->
     isValid (validateCSVContent (pre +:+ post)) = isValidCsv pre).
Proof.
  intros pre post Hn.
  assert (isValidCsv (pre +:+ post) = isValidCsv pre) as E
    by (unfold isValidCsv; cbv zeta; now rewrite slice0_split_lines_app).
  split; [exact E|]. intros Hhtml.
  rewrite validateCSVContent_cases, Hhtml, E. now destruct (isValidCsv pre).
Qed.

Lemma isValidCsv_ignores_tail_witness :
  isValidCsv (("a" +:+ String LF ("b" +:+ String LF ("c" +:+ String LF ""))) +:+ "d,e")
  = false.
Proof.
  rewrite (proj1 (isValidCsv_ignores_tail
                    ("a" +:+ String LF ("b" +:+ String LF ("c" +:+ String LF "")))
                    "d,e" ltac:(vm_compute; lia))).
  reflexivity.
Defined.

(** X2: an HTML marker anywhere rejects the content: content that
    [isHtmlContent] flags stays invalid, with the HTML reason, whatever
    text is put before and after it (commas included). *)
Theorem html_marker_rejects_any_extension :
  forall content pre post : string,
    isHtmlContent content = true ->
    isHtmlContent (pre +:+ content +:+ post) = true /\
    validateCSVContent (pre +:+ content +:+ post)
    = mkValidation false (Some "Content contains HTML markup").
Proof.
  intros content pre post H.
  assert (isHtmlContent (pre +:+ content +:+ post) = true) as E.
  { apply isHtmlContent_spec. apply isHtmlContent_spec in H.
    unfold has_html_marker in *.
    destruct H as [H|[H|[H|H]]]; eauto using substring_of_extend. }
  split; [exact E|]. now rewrite validateCSVContent_cases, E.
Qed.

Lemma html_marker_rejects_any_extension_witness :
  validateCSVContent ("a,b,c" +:+ "<body" +:+ ">x,y")
  = mkValidation false (Some "Content contains HTML markup").
Proof.
  apply (html_marker_rejects_any_extension "<body" "a,b,c" ">x,y"). reflexivity.
Defined.

(** X3: content the validator accepts holds a comma and none of the four
    markers; in particular it is not empty. *)
Theorem valid_content_has_comma :
  forall content : string,
    isValid (validateCSVContent content) = true ->
    has_char "," content /\ isHtmlContent content = false /\ content <> "".
Proof.
  intros content H. rewrite validateCSVContent_cases in H.
  destruct (isHtmlContent content) eqn:Hh; [discriminate|].
  destruct (isValidCsv content) eqn:Hc; [|discriminate].
  apply isValidCsv_spec in Hc as (line & Hin & Hcomma).
  apply In_slice0, split_lines_substring in Hin as (pre & post & ->).
  assert (has_char "," (pre +:+ line +:+ post)) as Hhas
    by now apply has_char_extend.
  split; [exact Hhas|]. split; [reflexivity|].
  intros E. rewrite E in Hhas. destruct Hhas as (p & q & Hq).
  destruct p; discriminate.
Qed.

Lemma valid_content_has_comma_witness : has_char "," "single,line,csv".
Proof. apply (valid_content_has_comma "single,line,csv"). reflexivity. Defined.

End ValidatorMore.

(** ** The size-change check: further results *)

Module SizeCheckMore.
Import Num SizeCheck NumFacts SizeCheckFacts Samples.

Lemma gt_nan_l x : gt S754_nan x = false.
Proof. unfold gt, SFltb. now destruct x. Qed.

Lemma gt_nan_r x : gt x S754_nan = false.
Proof. reflexivity. Qed.

Lemma sizeDifferencePercent_nan_l oldSize :
  sizeDifferencePercent S754_nan oldSize = S754_nan.
Proof. reflexivity. Qed.

Lemma sizeDifferencePercent_nan_r newSize :
  sizeDifferencePercent newSize S754_nan = S754_nan.
Proof. now destruct newSize. Qed.

Section WithFormatting.

Variable toFixed : number -> nat -> string.
Variable numberToString : number -> string.

Local Abbreviation checkFileSizeChange :=
  (checkFileSizeChange toFixed numberToString).

(** X4: [NaN] never warns: when the new size, the old size or the
    threshold is [NaN], the check returns "not changed, no warning". *)
Theorem checkFileSizeChange_nan :
  forall (newSize oldSize threshold : number) (fileName : string),
    is_nan newSize = true \/ is_nan oldSize = true \/ is_nan threshold = true ->
    checkFileSizeChange newSize oldSize threshold fileName = mkSizeChange false None.
Proof.
  intros newSize oldSize threshold fileName H.
  rewrite checkFileSizeChange_cases.
  destruct (strict_eq oldSize (of_Z 0)); [reflexivity|].
  destruct H as [H|[H|H]].
  - destruct newSize; try discriminate.
    now rewrite sizeDifferencePercent_nan_l, gt_nan_l.
  - destruct oldSize; try discriminate.
    now rewrite sizeDifferencePercent_nan_r, gt_nan_l.
  - destruct threshold; try discriminate. now rewrite gt_nan_r.
Qed.

(** The difference of a finite number with itself is [+0]. *)
Lemma sub_diag_finite s m e : sub (S754_finite s m e) (S754_finite s m e) = S754_zero false.
Proof. unfold sub, SFsub. now rewrite Z.sub_diag. Qed.

(** X5: equal sizes never warn unless the threshold is below zero: for
    every number [size] and every threshold that is not less than zero,
    [checkFileSizeChange size size threshold] returns "not changed, no
    warning" (a threshold of zero included). *)
Theorem checkFileSizeChange_equal_sizes :
  forall (size threshold : number) (fileName : string),
    gt (of_Z 0) threshold = false ->
    checkFileSizeChange size size threshold fileName = mkSizeChange false None.
Proof.
  intros size threshold fileName Hthr.
  rewrite checkFileSizeChange_cases.
  destruct size as [s|s| |s m e].
  - now destruct s.
  - replace (strict_eq (S754_infinity s) (of_Z 0)) with false
      by (now destruct s).
    replace (sizeDifferencePercent (S754_infinity s) (S754_infinity s))
      with S754_nan by (now destruct s).
    now rewrite gt_nan_l.
  - change (strict_eq S754_nan (of_Z 0)) with false.
    now rewrite sizeDifferencePercent_nan_l, gt_nan_l.
  - replace (strict_eq (S754_finite s m e) (of_Z 0)) with false
      by (now destruct s).
    unfold sizeDifferencePercent. rewrite sub_diag_finite.
    replace (abs (mul (div (S754_zero false) (S754_finite s m e)) (of_Z 100)))
      with (of_Z 0) by (now destruct s).
    now rewrite Hthr.
Qed.

End WithFormatting.

Lemma checkFileSizeChange_nan_witness :
  SizeCheck.checkFileSizeChange sample_toFixed sample_numberToString
    S754_nan (of_Z 100) (of_Z 20) "a.csv" = mkSizeChange false None.
Proof.
  apply (checkFileSizeChange_nan sample_toFixed sample_numberToString
           S754_nan (of_Z 100) (of_Z 20) "a.csv").
  left. reflexivity.
Defined.

Lemma checkFileSizeChange_equal_sizes_witness :
  SizeCheck.checkFileSizeChange sample_toFixed sample_numberToString
    (of_Z 26) (of_Z 26) (of_Z 0) "a.csv" = mkSizeChange false None.
Proof.
  apply (checkFileSizeChange_equal_sizes sample_toFixed sample_numberToString
           (of_Z 26) (of_Z 0) "a.csv").
  reflexivity.
Defined.

End SizeCheckMore.

(** ** The fetcher: further results *)

Module FetcherMore.
Import Text Validator Num SizeCheck Fetcher FetcherSpec OrchestratorSpec.
Import ValidatorFacts SizeCheckFacts FetcherFacts Samples.

Local Open Scope list_scope.

#[local] Arguments validateCSVContent : simpl never.
#[local] Arguments checkFileSizeChange : simpl never.

Ltac unfold_try :=
  unfold downloadFile_try, pathExists, bind, tryCatch, callTransport, await,
    ret, console_log, console_error, writeFile, stat_size, access, rename,
    fails, succeeds.

Section WithEnvironment.

Context {env : Environment}.

(** *** What the [try] block touches *)

Lemma downloadFile_try_frame url outputPath tempPath threshold fetchFn w c w1 :
  downloadFile_try url outputPath tempPath threshold fetchFn w = (c, w1) ->
  requests w1 = S (requests w) /\ dirs w1 = dirs w.
Proof.
  unfold_try. intros H. repeat (case_match; simplify_eq/=); auto.
Qed.

Lemma downloadFile_try_throw_files url outputPath tempPath threshold fetchFn w e w1 :
  downloadFile_try url outputPath tempPath threshold fetchFn w = (Throw e, w1) ->
  forall p, p <> tempPath -> files w1 !! p = files w !! p.
Proof.
  unfold_try. intros H p Hp.
  repeat (case_match; simplify_eq/=); auto; now rewrite lookup_insert_ne.
Qed.

(** Whatever the [try] block throws has a string conversion when what the
    transport and the environment throw has one: the errors the file
    system raises of its own are [Error] instances. *)
Lemma downloadFile_try_throw_printable
    url outputPath tempPath threshold fetchFn w e w1 :
  printable_transport fetchFn ->
  printable_faults ->
  downloadFile_try url outputPath tempPath threshold fetchFn w = (Throw e, w1) ->
  printable e.
Proof.
  intros [Hreject Hbody] Hfaults. unfold_try.
  intros H. repeat (case_match; simplify_eq/=).
  all: try (eexists; reflexivity).
  all: try (eapply Hreject; eassumption).
  all: try (eapply Hbody; eassumption).
  all: eapply Hfaults; eassumption.
Qed.

(** X6: [downloadFile] throws only out of a string conversion in its
    [catch] block: when it throws [e], its [try] block threw some value
    [error], and either the conversion of [error] to text threw [e], before
    any clean-up, or the [unlink] of the temporary file failed with an
    [Error] whose message, converted to text, threw [e]. A result that is
    returned and is not a success is exactly
    [{success: false, warning: null}]. *)
Theorem downloadFile_throws_only_from_conversion :
  forall (url outputPath tempPath : string) (threshold : option number)
         (fetchFn : option Transport) (w : World) c w',
    downloadFile url outputPath tempPath threshold fetchFn w = (c, w') ->
    match c with
    | Normal r => success r = false -> r = failure
    | Throw e =>
        exists error w1,
          downloadFile_try url outputPath tempPath
            (default (sizeChangeThresholdPercent DEFAULT_CONFIG) threshold)
            (default globalFetch fetchFn) (started url w) = (Throw error, w1) /\
          ((thrownToString error = Throw e /\
            calls w' = calls w1 /\ files w' = files w1) \/
           (exists err,
              calls w' = calls w1 ++ [(CAccess tempPath, None);
                                      (CUnlink tempPath, Some err)] /\
              files w' = files w1 /\
              errorMessageOf err = Some (Throw e)))
    end.
Proof.
  intros url outputPath tempPath threshold fetchFn w c w'.
  rewrite downloadFile_unfold. unfold tryCatch.
  destruct (downloadFile_try _ _ _ _ _ (started url w)) as [[r|error] w1] eqn:Etry.
  - intros [= <- <-].
    apply downloadFile_try_normal in Etry as [(-> & _)|(Hs & _)]; [auto|congruence].
  - intros Ecatch. destruct c as [r|e].
    + apply downloadFile_catch_normal in Ecatch as (-> & _). auto.
    + exists error, w1. split; [reflexivity|].
      apply downloadFile_catch_inv in Ecatch
        as (_ & _ & [(Hc & Hf & raised & Hshown & [= <-])
                    |[(err & _ & _ & [=])
                     |[(_ & _ & [=])
                      |(err & Hc & Hf & [([=] & _)|(raised & Hmsg & [= <-])])]]]).
      * left. auto.
      * right. exists err. auto.
Qed.

(** X21: with a transport and an environment whose thrown values (and
    their messages) have string conversions, [downloadFile] returns, for
    every other behaviour of the transport and whichever file-system calls
    fail. *)
Theorem downloadFile_returns_when_printable :
  forall (url outputPath tempPath : string) (threshold : option number)
         (fetchFn : option Transport) (w : World),
    printable_transport (default globalFetch fetchFn) ->
    printable_faults ->
    exists (r : FileOutcome) (w' : World),
      downloadFile url outputPath tempPath threshold fetchFn w = (Normal r, w').
Proof.
  intros url outputPath tempPath threshold fetchFn w Htransport Hfaults.
  rewrite downloadFile_unfold. unfold tryCatch.
  destruct (downloadFile_try _ _ _ _ _ (started url w)) as [[r|error] w1] eqn:Etry.
  - now exists r, w1.
  - apply downloadFile_try_throw_printable in Etry; [|assumption..].
    destruct (downloadFile_catch_returns tempPath error w1 Etry) as (w' & E).
    + intros n e res H. eapply Hfaults, H.
    + now exists failure, w'.
Qed.

Lemma downloadFile_frame :
  forall (url outputPath tempPath : string) (threshold : option number)
         (fetchFn : option Transport) (w : World) c w',
    downloadFile url outputPath tempPath threshold fetchFn w = (c, w') ->
    requests w' = S (requests w) /\ dirs w' = dirs w.
Proof.
  intros url outputPath tempPath threshold fetchFn w c w'.
  rewrite downloadFile_unfold. unfold tryCatch.
  destruct (downloadFile_try _ _ _ _ _ (started url w)) as [[r|e] w1] eqn:Etry;
    apply downloadFile_try_frame in Etry as [Hr Hd];
    change (requests (started url w)) with (requests w) in Hr;
    change (dirs (started url w)) with (dirs w) in Hd.
  - intros [= <- <-]. auto.
  - intros Ecatch. apply downloadFile_catch_inv in Ecatch as (Hd2 & Hr2 & _).
    split; congruence.
Qed.

(** X7: one call of [downloadFile] makes exactly one transport request
    (there is no retry) and creates or removes no directory. *)
Theorem downloadFile_single_request :
  forall (url outputPath tempPath : string) (threshold : option number)
         (fetchFn : option Transport) (w : World) c w',
    downloadFile url outputPath tempPath threshold fetchFn w = (c, w') ->
    requests w' = S (requests w) /\ dirs w' = dirs w.
Proof.
  intros url outputPath tempPath threshold fetchFn w c w'.
  rewrite downloadFile_unfold. unfold tryCatch.
  destruct (downloadFile_try _ _ _ _ _ (started url w)) as [[r|e] w1] eqn:Etry;
    apply downloadFile_try_frame in Etry as [Hr Hd];
    change (requests (started url w)) with (requests w) in Hr;
    change (dirs (started url w)) with (dirs w) in Hd.
  - intros [= <- <-]. auto.
  - intros Ecatch. apply downloadFile_catch_inv in Ecatch as (Hd2 & Hr2 & _).
    split; congruence.
Qed.

(** The files after a call, for both kinds of result. *)
Lemma downloadFile_files url outputPath tempPath threshold fetchFn w r w' :
  downloadFile url outputPath tempPath threshold fetchFn w = (Normal r, w') ->
  (success r = true /\
   exists content,
     text_of (default globalFetch fetchFn) url w = Some content /\
     isValid (validateCSVContent content) = true /\
     files w' = <[outputPath := content]>
                  (delete tempPath (<[tempPath := content]> (files w)))) \/
  (r = failure /\ forall p, p <> tempPath -> files w' !! p = files w !! p).
Proof.
  rewrite downloadFile_unfold. unfold tryCatch.
  destruct (downloadFile_try _ _ _ _ _ (started url w)) as [[r0|e] w1] eqn:Etry.
  - intros [= <- <-].
    apply downloadFile_try_normal in Etry
      as [(-> & Hf & _)|(Hs & content & Htext & Hvalid & Hf)].
    + right. split; [reflexivity|]. intros p _. now rewrite Hf.
    + left. split; [exact Hs|]. exists content. auto.
  - intros Ecatch.
    apply downloadFile_catch_normal in Ecatch as (-> & _ & Hcases).
    right. split; [reflexivity|]. intros p Hp.
    pose proof (downloadFile_try_throw_files _ _ _ _ _ _ _ _ Etry p Hp) as Hf.
    change (files (started url w)) with (files w) in Hf.
    destruct Hcases as [-> | ->];
      rewrite ?lookup_delete_ne by congruence; exact Hf.
Qed.

(** X8: a success means a commit: when [downloadFile] returns
    [success: true], the transport delivered a body that the validator
    accepts, that body is the content of the final path, no file is left
    at a temporary path distinct from it, and every other file is as it
    was. *)
Theorem downloadFile_success_commits :
  forall (url outputPath tempPath : string) (threshold : option number)
         (fetchFn : option Transport) (w : World) r w',
    downloadFile url outputPath tempPath threshold fetchFn w = (Normal r, w') ->
    success r = true ->
    exists content,
      text_of (default globalFetch fetchFn) url w = Some content /\
      isValid (validateCSVContent content) = true /\
      files w' !! outputPath = Some content /\
      (tempPath <> outputPath -> files w' !! tempPath = None) /\
      (forall p, p <> outputPath -> p <> tempPath -> files w' !! p = files w !! p).
Proof.
  intros url outputPath tempPath threshold fetchFn w r w' E Hs.
  destruct (downloadFile_files _ _ _ _ _ _ _ _ E)
    as [(_ & content & Htext & Hvalid & Hf)|(-> & _)]; [|discriminate].
  exists content. split; [exact Htext|]. split; [exact Hvalid|].
  rewrite Hf. split; [apply lookup_insert_eq|]. split.
  - intros Hne. rewrite lookup_insert_ne by congruence. apply lookup_delete_eq.
  - intros p Hp Ht.
    rewrite lookup_insert_ne, lookup_delete_ne, lookup_insert_ne by congruence.
    reflexivity.
Qed.

(** X9: a failed download changes no file other than the temporary one:
    when [downloadFile] does not return a success, every path other than
    [tempPath] (the final path too, when it differs) holds what it held
    before. *)
Theorem downloadFile_failure_keeps_files :
  forall (url outputPath tempPath : string) (threshold : option number)
         (fetchFn : option Transport) (w : World) r w',
    downloadFile url outputPath tempPath threshold fetchFn w = (Normal r, w') ->
    success r = false ->
    forall p, p <> tempPath -> files w' !! p = files w !! p.
Proof.
  intros url outputPath tempPath threshold fetchFn w r w' E Hs p Hp.
  destruct (downloadFile_files _ _ _ _ _ _ _ _ E)
    as [(Hs' & _)|(_ & Hf)]; [congruence|].
  now apply Hf.
Qed.

(** X10: content the validator rejects never reaches the disk: when the
    transport answers [ok] with a body that is not valid,
    [downloadFile] returns the failure outcome without a single
    file-system call, and the last console line is the validator's reason,
    on the error console (the fallback text "Content validation failed"
    is never printed). *)
Theorem downloadFile_invalid_content :
  forall (url outputPath tempPath : string) (threshold : option number)
         (fetchFn : option Transport) (w : World) response content,
    default globalFetch fetchFn url (requests w) = Normal response ->
    ok response = true ->
    text response = Normal content ->
    isValid (validateCSVContent content) = false ->
    exists w' message,
      downloadFile url outputPath tempPath threshold fetchFn w = (Normal failure, w') /\
      files w' = files w /\ dirs w' = dirs w /\ calls w' = calls w /\
      last (console w') = Some (LevelError, message) /\
      reason (validateCSVContent content) = Some message /\
      (message = "Content contains HTML markup"%string \/
       message = "Content lacks comma separators"%string).
Proof.
  intros url outputPath tempPath threshold fetchFn w response content
    Hresp Hok Htext Hinvalid.
  rewrite downloadFile_unfold.
  unfold tryCatch, downloadFile_try, bind, callTransport, await, started; simpl.
  rewrite Hresp, Hok, Htext. simpl. rewrite Hinvalid. simpl.
  rewrite validateCSVContent_cases in *.
  destruct (isHtmlContent content); simpl.
  - eexists _, _. split; [reflexivity|]. simpl. rewrite last_snoc. auto 10.
  - destruct (isValidCsv content); [discriminate|]. simpl.
    eexists _, _. split; [reflexivity|]. simpl. rewrite last_snoc. auto 10.
Qed.

(** X11: the first download of a file never warns: when nothing is at the
    final path (no file, no directory) and the temporary path is another
    path, whatever [downloadFile] returns carries no warning. *)
Theorem downloadFile_first_download_no_warning :
  forall (url outputPath tempPath : string) (threshold : option number)
         (fetchFn : option Transport) (w : World) r w',
    files w !! outputPath = None ->
    is_dir outputPath w = false ->
    tempPath <> outputPath ->
    downloadFile url outputPath tempPath threshold fetchFn w = (Normal r, w') ->
    outcome_warning r = None.
Proof.
  intros url outputPath tempPath threshold fetchFn w r w' Hnone Hdir Hne.
  rewrite downloadFile_unfold. unfold tryCatch.
  destruct (downloadFile_try _ _ _ _ _ (started url w)) as [[r0|e] w1] eqn:Etry.
  - intros [= <- <-]. revert Etry. unfold started. unfold_try. unfold is_file, is_dir in *.
    intros H. repeat (case_match; simplify_eq/=); auto.
    all: exfalso.
    all: match goal with
         | H : _ || _ = true |- _ =>
             apply orb_true_iff in H as [H|H]; apply bool_decide_eq_true in H
         end.
    all: try (rewrite lookup_insert_ne in * by done; rewrite Hnone in *;
              match goal with H : is_Some None |- _ => by destruct H end).
    all: try (apply bool_decide_eq_false in Hdir; contradiction).
  - intros Ecatch. apply downloadFile_catch_normal in Ecatch as (-> & _).
    reflexivity.
Qed.

(** X12: what the warning of a success is: when a file is at the final
    path, the temporary path is another path and the existence check of
    the final path is not failed by the environment, the warning a
    successful [downloadFile] returns is the one [checkFileSizeChange]
    gives for the byte length of the delivered body against the byte
    length of the file that was there, with the effective threshold and
    the base name of the final path. *)
Theorem downloadFile_warning_is_size_check :
  forall (url outputPath tempPath : string) (threshold : option number)
         (fetchFn : option Transport) (w : World) r w' old,
    files w !! outputPath = Some old ->
    tempPath <> outputPath ->
    (forall n, fault (CAccess outputPath) n = NoFault) ->
    downloadFile url outputPath tempPath threshold fetchFn w = (Normal r, w') ->
    success r = true ->
    exists content,
      text_of (default globalFetch fetchFn) url w = Some content /\
      outcome_warning r
      = warning (checkFileSizeChange toFixed numberToString
                   (of_Z (byteLength content)) (of_Z (byteLength old))
                   (default (sizeChangeThresholdPercent DEFAULT_CONFIG) threshold)
                   (basename outputPath)).
Proof.
  intros url outputPath tempPath threshold fetchFn w r w' old Hold Hne Hacc.
  rewrite downloadFile_unfold. unfold tryCatch.
  destruct (downloadFile_try _ _ _ _ _ (started url w)) as [[r0|e] w1] eqn:Etry.
  - intros [= <- <-] Hs. revert Etry. unfold started, text_of. unfold_try.
    unfold is_file, is_dir in *.
    intros H. repeat (case_match; simplify_eq/=); try discriminate.
    all: try (rewrite Hacc in *; discriminate).
    all: rewrite ?lookup_insert_eq, ?lookup_insert_ne in * by done; simplify_eq.
    all: try (eexists; split; [reflexivity|]; simpl; congruence).
    all: try (eexists; split; [reflexivity|]; simpl;
              match goal with
              | H : warning (checkFileSizeChange _ _ ?a ?b ?c ?d) = Some "" |- _ =>
                  now destruct (checkFileSizeChange_warning_nonempty
                                  toFixed numberToString a b c d)
              end).
    all: exfalso.
    all: match goal with
         | H : _ || _ = false |- _ =>
             apply orb_false_iff in H as [H _]; apply bool_decide_eq_false in H;
             apply H; rewrite ?lookup_insert_ne by done; eauto
         end.
  - intros Ecatch. apply downloadFile_catch_normal in Ecatch as (-> & _).
    discriminate.
Qed.

(** X19: the rename is the commit, and it comes last: the file-system
    calls of a successful [downloadFile] are, in order, the write of the
    body the transport delivered to the temporary file, its [stat], the
    existence check of the final path, the [stat] of the final path when
    the check found it, and the rename onto the final path; nothing but
    the rename is addressed to the final path as a target. *)
Theorem downloadFile_success_calls :
  forall (url outputPath tempPath : string) (threshold : option number)
         (fetchFn : option Transport) (w : World) r w',
    downloadFile url outputPath tempPath threshold fetchFn w = (Normal r, w') ->
    success r = true ->
    exists content probe,
      text_of (default globalFetch fetchFn) url w = Some content /\
      calls w' = calls w ++
                 [(CWriteFile tempPath content, None); (CStat tempPath, None)] ++
                 probe ++ [(CRename tempPath outputPath, None)] /\
      ((exists err, probe = [(CAccess outputPath, Some err)]) \/
       probe = [(CAccess outputPath, None); (CStat outputPath, None)]).
Proof.
  intros url outputPath tempPath threshold fetchFn w r w'.
  rewrite downloadFile_unfold. unfold tryCatch.
  destruct (downloadFile_try _ _ _ _ _ (started url w)) as [[r0|e] w1] eqn:Etry.
  - intros [= <- <-] Hs. revert Etry. unfold started, text_of. unfold_try.
    intros H. repeat (case_match; simplify_eq/=); try discriminate.
    all: rewrite <- ?app_assoc; simpl.
    all: eexists _, _; split; [reflexivity|]; split;
      [reflexivity || (instantiate (1 := [_]); reflexivity)
                   || (instantiate (1 := [_; _]); reflexivity) | eauto].
  - intros Ecatch. apply downloadFile_catch_normal in Ecatch as (-> & _).
    discriminate.
Qed.

(** *** The orchestrator *)

Lemma string_length_append (a b : string) :
  String.length (a +:+ b) = String.length a + String.length b.
Proof.
  induction a as [|x a IH]; [reflexivity|].
  change (S (String.length (a +:+ b)) = S (String.length a + String.length b)).
  now rewrite IH.
Qed.

(** The temporary path of a template is never its final path. *)
Lemma template_paths_distinct config template :
  template_tempPath config template <> template_outputPath config template.
Proof.
  unfold template_tempPath. intros E.
  apply (f_equal String.length) in E. rewrite string_length_append in E.
  simpl in E. lia.
Qed.

Lemma console_only_ret : console_only (ret tt).
Proof. intros w. exists w. auto. Qed.

Lemma console_only_log message : console_only (console_log message).
Proof. intros w. eexists. split; [reflexivity|]. auto. Qed.

Lemma console_only_bind (m k : M unit) :
  console_only m -> console_only k -> console_only (m ;;; k).
Proof.
  intros Hm Hk w. destruct (Hm w) as (w1 & E1 & Hf1 & Hd1 & Hc1 & Hr1).
  destruct (Hk w1) as (w2 & E2 & Hf2 & Hd2 & Hc2 & Hr2).
  exists w2. rewrite (bind_normal _ _ _ _ _ E1). split; [exact E2|].
  repeat split; congruence.
Qed.

Lemma console_only_forEach {A} (f : A -> M unit) xs :
  (forall x, console_only (f x)) -> console_only (forEach f xs).
Proof.
  intros Hf. induction xs as [|x xs IH]; simpl.
  - apply console_only_ret.
  - now apply console_only_bind.
Qed.

Lemma console_only_printSummary lists : console_only (printSummary lists).
Proof.
  unfold printSummary.
  repeat (apply console_only_bind;
          [first [apply console_only_log
                 |apply console_only_forEach; intros; apply console_only_log
                 |idtac]|]).
  - destruct (0 <? _)%nat; [|apply console_only_ret].
    apply console_only_bind; [apply console_only_log|].
    apply console_only_forEach; intros; apply console_only_log.
  - apply console_only_forEach; intros; apply console_only_log.
Qed.

(** The directory step changes no file and makes no request. *)
Lemma ensureOutputDir_frame dir w c w' :
  ensureOutputDir dir w = (c, w') ->
  files w' = files w /\ requests w' = requests w.
Proof.
  unfold ensureOutputDir, tryCatch, access, mkdir_recursive, fails, succeeds.
  intros H. repeat (case_match; simplify_eq/=); auto.
Qed.

Lemma processed_frame config dateStr fetchFn w templates results w' :
  processed config dateStr fetchFn w templates results w' ->
  requests w' = requests w + length templates /\ dirs w' = dirs w.
Proof.
  induction 1 as [|w template result w1 rest results w2 E _ [IHr IHd]]; simpl.
  - split; [lia | reflexivity].
  - apply downloadFile_frame in E as [Hr Hd]. split; [lia | congruence].
Qed.

Lemma aborted_frame config dateStr fetchFn w templates e w' :
  aborted config dateStr fetchFn w templates e w' ->
  requests w < requests w' <= requests w + length templates /\ dirs w' = dirs w.
Proof.
  induction 1 as [w template rest e w' E
                 |w template result w1 rest e w' E _ [IHr IHd]]; simpl.
  - apply downloadFile_frame in E as [Hr Hd]. split; [lia | exact Hd].
  - apply downloadFile_frame in E as [Hr Hd]. split; [lia | congruence].
Qed.

(** The loop throws what the [downloadFile] that stopped it threw. *)
Lemma aborted_for_of config dateStr fetchFn w templates e w' :
  aborted config dateStr fetchFn w templates e w' ->
  forall lists,
    for_of (processTemplate config dateStr fetchFn) templates lists w = (Throw e, w').
Proof.
  induction 1 as [w template rest e w' E
                 |w template result w1 rest e w' E _ IH]; intros lists; simpl;
    destruct (processTemplate_spec config dateStr fetchFn lists template w)
      as (c & w2 & Edl & Estep);
    rewrite E in Edl; injection Edl as <- <-.
  - now rewrite (bind_throw _ _ _ _ _ Estep).
  - rewrite (bind_normal _ _ _ _ _ Estep). apply IH.
Qed.

(** With values that have string conversions no [downloadFile] stops the
    loop. *)
Lemma aborted_not_printable config dateStr fetchFn w templates e w' :
  printable_transport fetchFn ->
  printable_faults ->
  aborted config dateStr fetchFn w templates e w' ->
  False.
Proof.
  intros Htransport Hfaults.
  induction 1 as [w template rest e w' E|w template result w1 rest e w' _ _ IH];
    [|exact IH].
  revert E. rewrite downloadFile_unfold. unfold tryCatch.
  destruct (downloadFile_try _ _ _ _ _ (started _ w)) as [[r|error] w1] eqn:Etry;
    [discriminate|].
  apply downloadFile_try_throw_printable in Etry; [|assumption..].
  destruct (downloadFile_catch_returns (template_tempPath config template)
              error w1 Etry) as (w2 & ->); [|discriminate].
  intros n e0 res H. eapply Hfaults, H.
Qed.

(** [fetchData] past its directory step and the date formatting: the loop
    and the summary. *)
Lemma fetchData_loop options w w0 dateStr :
  ensureOutputDir (outputDir (effective_config options)) w = (Normal tt, w0) ->
  format (effective_date options) (dateFormat (effective_config options))
  = Normal dateStr ->
  fetchData options w
  = (lists <- for_of (processTemplate (effective_config options) dateStr
                        (effective_transport options))
                (effective_templates options) (mkDownloadResult [] [] []) ;;
     printSummary lists ;;; ret lists) w0.
Proof.
  intros Hdir Hdate. unfold fetchData.
  change (mergeConfig DEFAULT_CONFIG (config options))
    with (effective_config options).
  rewrite (bind_normal _ _ _ _ _ Hdir).
  change (default now (date options)) with (effective_date options).
  assert (await (format (effective_date options)
                   (dateFormat (effective_config options))) w0
          = (Normal dateStr, w0)) as Eformat
    by (unfold await; now rewrite Hdate).
  now rewrite (bind_normal _ _ _ _ _ Eformat).
Qed.

(** A run of [fetchData] that gets past the directory step and the date
    formatting, taken apart: every template was processed and the lists
    are returned, or a [downloadFile] threw and [fetchData] throws the
    same. *)
Lemma fetchData_run options w w0 dateStr :
  ensureOutputDir (outputDir (effective_config options)) w = (Normal tt, w0) ->
  format (effective_date options) (dateFormat (effective_config options))
  = Normal dateStr ->
  (exists results w1 w',
     processed (effective_config options) dateStr (effective_transport options)
       w0 (effective_templates options) results w1 /\
     fetchData options w
     = (Normal (mkDownloadResult
                  (downloaded_of (effective_config options)
                     (zip (effective_templates options) results))
                  (skipped_of (zip (effective_templates options) results))
                  (warnings_of (zip (effective_templates options) results))), w') /\
     files w' = files w1 /\ dirs w' = dirs w1 /\
     calls w' = calls w1 /\ requests w' = requests w1) \/
  (exists e w',
     aborted (effective_config options) dateStr (effective_transport options)
       w0 (effective_templates options) e w' /\
     fetchData options w = (Throw e, w')).
Proof.
  intros Hdir Hdate. rewrite (fetchData_loop options w w0 dateStr Hdir Hdate).
  destruct (for_of_processTemplate (effective_config options) dateStr
              (effective_transport options) (effective_templates options)
              (mkDownloadResult [] [] []) w0)
    as [(results & w1 & Hproc & Eloop)|(e & w1 & Habort & Eloop)].
  - left. rewrite fold_add_outcome in Eloop. simpl in Eloop.
    destruct (console_only_printSummary
                (mkDownloadResult
                   (downloaded_of (effective_config options)
                      (zip (effective_templates options) results))
                   (skipped_of (zip (effective_templates options) results))
                   (warnings_of (zip (effective_templates options) results))) w1)
      as (w' & Esum & Hf & Hd & Hc & Hr).
    exists results, w1, w'. split; [exact Hproc|]. split; [|auto].
    rewrite (bind_normal _ _ _ _ _ Eloop).
    now rewrite (bind_normal _ _ _ _ _ Esum).
  - right. exists e, w1. split; [exact Habort|].
    now rewrite (bind_throw _ _ _ _ _ Eloop).
Qed.

(** X13: one round of the loop is all or nothing for the template's
    stored file: either the template is skipped and the file at its final
    path is what it was, or its final path is added to [downloadedFiles],
    holds a body the validator accepts, and no file is left at its
    temporary path. *)
Theorem processTemplate_all_or_nothing :
  forall (config : FetcherConfig) (dateStr : string) (fetchFn : Transport)
         (lists lists' : DownloadResult) (template : FileTemplate) (w w' : World),
    processTemplate config dateStr fetchFn lists template w = (Normal lists', w') ->
    (skippedFiles lists' = skippedFiles lists ++ [outputFile template] /\
     downloadedFiles lists' = downloadedFiles lists /\
     files w' !! template_outputPath config template
     = files w !! template_outputPath config template) \/
    (downloadedFiles lists' = downloadedFiles lists ++ [template_outputPath config template] /\
     skippedFiles lists' = skippedFiles lists /\
     files w' !! template_tempPath config template = None /\
     exists content,
       files w' !! template_outputPath config template = Some content /\
       isValid (validateCSVContent content) = true).
Proof.
  intros config dateStr fetchFn lists lists' template w w' H.
  destruct (processTemplate_spec config dateStr fetchFn lists template w)
    as ([result|e] & w1 & Edl & Estep); rewrite Estep in H; [|discriminate].
  injection H as <- <-.
  pose proof (template_paths_distinct config template) as Hne.
  unfold add_outcome.
  destruct (downloadFile_files _ _ _ _ _ _ _ _ Edl)
    as [(Hs & content & _ & Hvalid & Hf)|(-> & Hf)].
  - rewrite Hs. simpl. right. rewrite Hf. repeat split; auto.
    + rewrite lookup_insert_ne by congruence. apply lookup_delete_eq.
    + exists content. split; [apply lookup_insert_eq | exact Hvalid].
  - simpl. left. split; [reflexivity|]. split; [reflexivity|].
    apply Hf. congruence.
Qed.

Lemma fetchData_throw_cases :
  forall (options : Options) (w : World) (e : Thrown) (w' : World),
    fetchData options w = (Throw e, w') <->
    (ensureOutputDir (outputDir (effective_config options)) w = (Throw e, w') \/
     (ensureOutputDir (outputDir (effective_config options)) w = (Normal tt, w') /\
      format (effective_date options) (dateFormat (effective_config options))
      = Throw e) \/
     (exists w0 dateStr,
        ensureOutputDir (outputDir (effective_config options)) w = (Normal tt, w0) /\
        format (effective_date options) (dateFormat (effective_config options))
        = Normal dateStr /\
        aborted (effective_config options) dateStr (effective_transport options)
          w0 (effective_templates options) e w')).
Proof.
  intros options w e w'.
  destruct (ensureOutputDir (outputDir (effective_config options)) w)
    as [[[]|e0] w0] eqn:Hdir.
  - destruct (format (effective_date options)
                (dateFormat (effective_config options))) as [dateStr|e1] eqn:Hdate.
    + split.
      * intros H.
        destruct (fetchData_run options w w0 dateStr Hdir Hdate)
          as [(results & w1 & w2 & _ & E & _)|(e1 & w1 & Habort & E)];
          rewrite E in H; [discriminate|].
        injection H as <- <-. right. right. exists w0, dateStr. auto.
      * intros [H|[[_ H]|(w1 & dateStr' & [= <-] & [= <-] & Habort)]];
          try discriminate.
        rewrite (fetchData_loop options w w0 dateStr Hdir Hdate).
        now rewrite (bind_throw _ _ _ _ _ (aborted_for_of _ _ _ _ _ _ _ Habort _)).
    + assert (fetchData options w = (Throw e1, w0)) as ->.
      { unfold fetchData.
        change (mergeConfig DEFAULT_CONFIG (config options))
          with (effective_config options).
        rewrite (bind_normal _ _ _ _ _ Hdir).
        change (default now (date options)) with (effective_date options).
        unfold bind at 1, await. now rewrite Hdate. }
      split.
      * intros [= <- <-]. auto.
      * intros [H|[[H1 H2]|(w1 & dateStr' & _ & H & _)]]; congruence.
  - assert (fetchData options w = (Throw e0, w0)) as ->.
    { unfold fetchData.
      change (mergeConfig DEFAULT_CONFIG (config options))
        with (effective_config options).
      now rewrite (bind_throw _ _ _ _ _ Hdir). }
    split.
    + intros [= <- <-]. auto.
    + intros [H|[[H _]|(w1 & dateStr' & H & _)]]; congruence.
Qed.

(** X14: [fetchData] throws exactly when its directory step throws, when
    the date formatting throws, or when [downloadFile] throws for one of
    the templates (those before it processed, those after it left out),
    and it throws that error. In the first two cases it has made no
    transport request and changed no file; in the third it has made at
    least one request and at most one for each template. *)
Theorem fetchData_throws_iff :
  forall (options : Options) (w : World) (e : Thrown) (w' : World),
    (fetchData options w = (Throw e, w') <->
     (ensureOutputDir (outputDir (effective_config options)) w = (Throw e, w') \/
      (ensureOutputDir (outputDir (effective_config options)) w = (Normal tt, w') /\
       format (effective_date options) (dateFormat (effective_config options))
       = Throw e) \/
      (exists w0 dateStr,
         ensureOutputDir (outputDir (effective_config options)) w = (Normal tt, w0) /\
         format (effective_date options) (dateFormat (effective_config options))
         = Normal dateStr /\
         aborted (effective_config options) dateStr (effective_transport options)
           w0 (effective_templates options) e w'))) /\
    (ensureOutputDir (outputDir (effective_config options)) w = (Throw e, w') \/
     (ensureOutputDir (outputDir (effective_config options)) w = (Normal tt, w') /\
      format (effective_date options) (dateFormat (effective_config options))
      = Throw e) ->
     files w' = files w /\ requests w' = requests w) /\
    (forall w0 dateStr,
       ensureOutputDir (outputDir (effective_config options)) w = (Normal tt, w0) ->
       aborted (effective_config options) dateStr (effective_transport options)
         w0 (effective_templates options) e w' ->
       requests w < requests w' <= requests w + length (effective_templates options)).
Proof.
  intros options w e w'. split; [apply fetchData_throw_cases|]. split.
  - intros [H|[H _]]; eapply ensureOutputDir_frame; eassumption.
  - intros w0 dateStr Hdir Habort.
    apply ensureOutputDir_frame in Hdir as [_ Hr0].
    apply aborted_frame in Habort as [Hr _]. lia.
Qed.

(** X15: the directory step, when the environment fails neither its
    existence check nor its [mkdir]: it returns normally and changes no
    file; a path that is already there (a directory, or a regular file)
    is accepted as it is, with the existence check as the only call and no
    directory created; a path that is not there becomes a directory. Either
    way the path is there afterwards. *)
Theorem ensureOutputDir_spec :
  forall (dir : string) (w : World),
    (forall n, fault (CAccess dir) n = NoFault) ->
    (forall n, fault (CMkdir dir) n = NoFault) ->
    exists w',
      ensureOutputDir dir w = (Normal tt, w') /\
      files w' = files w /\
      is_file dir w' || is_dir dir w' = true /\
      (is_file dir w || is_dir dir w = true ->
       dirs w' = dirs w /\ calls w' = calls w ++ [(CAccess dir, None)]) /\
      (is_file dir w || is_dir dir w = false -> dirs w' = {[dir]} ∪ dirs w).
Proof.
  intros dir w Ha Hm.
  unfold ensureOutputDir, tryCatch, access, mkdir_recursive, fails, succeeds.
  rewrite Ha. destruct (is_file dir w || is_dir dir w) eqn:Hthere.
  - eexists. split; [reflexivity|]. simpl. repeat split; auto. discriminate.
  - simpl. rewrite Hm.
    apply orb_false_iff in Hthere as [Hfile Hdir].
    change (is_file dir (record_call (CAccess dir)
                           (Some (fsError "ENOENT" "access" dir)) w))
      with (is_file dir w).
    rewrite Hfile. eexists. split; [reflexivity|]. simpl.
    repeat split; auto; try discriminate.
    apply orb_true_iff. right. apply bool_decide_eq_true. simpl. set_solver.
Qed.

(** X16: a run of [fetchData] that gets past the directory step and the
    date formatting makes at most one transport request per template, and
    the loop creates no directory; when [fetchData] returns, it has made
    exactly one request per template: no template is retried and none is
    left out; when it throws, it has made at least one. *)
Theorem fetchData_one_request_per_template :
  forall (options : Options) (w w0 : World) (dateStr : string) c w',
    ensureOutputDir (outputDir (effective_config options)) w = (Normal tt, w0) ->
    format (effective_date options) (dateFormat (effective_config options))
    = Normal dateStr ->
    fetchData options w = (c, w') ->
    requests w' <= requests w + length (effective_templates options) /\
    dirs w' = dirs w0 /\
    match c with
    | Normal _ => requests w' = requests w + length (effective_templates options)
    | Throw _ => requests w < requests w'
    end.
Proof.
  intros options w w0 dateStr c w' Hdir Hdate.
  destruct (fetchData_run options w w0 dateStr Hdir Hdate)
    as [(results & w1 & w2 & Hproc & -> & _ & Hd & _ & Hr)
       |(e & w1 & Habort & ->)];
    intros [= <- <-]; apply ensureOutputDir_frame in Hdir as [_ Hr0].
  - apply processed_frame in Hproc as [Hr1 Hd1].
    split; [lia|]. split; congruence.
  - apply aborted_frame in Habort as [Hr1 Hd1].
    split; [lia|]. split; [exact Hd1 | lia].
Qed.

Lemma warnings_le_downloaded config runs :
  length (warnings_of runs) <= length (downloaded_of config runs).
Proof.
  unfold warnings_of, downloaded_of. rewrite length_map.
  induction (List.filter (fun run => success (snd run)) runs) as [|run l IH];
    simpl; [lia|].
  rewrite length_app. destruct (outcome_warning (snd run)); simpl; lia.
Qed.

(** X17: [fetchData] never returns more warnings than downloaded files,
    and a run in which every template is skipped returns no warning. *)
Theorem fetchData_warnings_bounded :
  forall (options : Options) (w : World) (lists : DownloadResult) (w' : World),
    fetchData options w = (Normal lists, w') ->
    length (fileSizeWarnings lists) <= length (downloadedFiles lists) /\
    (downloadedFiles lists = [] -> fileSizeWarnings lists = []).
Proof.
  intros options w lists w' H.
  assert (length (fileSizeWarnings lists) <= length (downloadedFiles lists)) as Hle.
  { destruct (ensureOutputDir (outputDir (effective_config options)) w)
      as [[[]|e0] w0] eqn:Hdir.
    - destruct (format (effective_date options)
                  (dateFormat (effective_config options)))
        as [dateStr|e1] eqn:Hdate.
      + destruct (fetchData_run options w w0 dateStr Hdir Hdate)
          as [(results & w1 & w2 & _ & E & _)|(e & w1 & _ & E)];
          rewrite E in H; [|discriminate].
        injection H as <- <-. simpl. apply warnings_le_downloaded.
      + assert (fetchData options w = (Throw e1, w0)) as E
          by (apply fetchData_throw_cases; auto).
        congruence.
    - assert (fetchData options w = (Throw e0, w0)) as E
        by (apply fetchData_throw_cases; auto).
      congruence. }
  split; [exact Hle|]. intros Hnil. rewrite Hnil in Hle. simpl in Hle.
  destruct (fileSizeWarnings lists); [reflexivity | simpl in Hle; lia].
Qed.

(** X18: an empty template list is honoured, not replaced by the built-in
    catalogue: with [urlTemplates] set to the empty list, a run that gets
    past the directory step and the date formatting returns three empty
    lists, makes no transport request and no file-system call beyond the
    directory step. *)
Theorem fetchData_empty_templates :
  forall (options : Options) (w w0 : World) (dateStr : string),
    urlTemplates options = Some [] ->
    ensureOutputDir (outputDir (effective_config options)) w = (Normal tt, w0) ->
    format (effective_date options) (dateFormat (effective_config options))
    = Normal dateStr ->
    exists w',
      fetchData options w = (Normal (mkDownloadResult [] [] []), w') /\
      requests w' = requests w /\ calls w' = calls w0 /\ files w' = files w.
Proof.
  intros options w w0 dateStr Hempty Hdir Hdate.
  destruct (fetchData_run options w w0 dateStr Hdir Hdate)
    as [(results & w1 & w' & Hproc & E & Hf & _ & Hc & Hr)
       |(e & w1 & Habort & _)];
    unfold effective_templates in *; rewrite Hempty in *; simpl in *;
    [|inversion Habort].
  inversion Hproc; subst.
  exists w'. split; [exact E|].
  apply ensureOutputDir_frame in Hdir as [Hf0 Hr0].
  repeat split; congruence.
Qed.

(** X20: the partition of the outcomes. Once the output directory is in
    place and the date is formatted, and with a transport and an
    environment whose thrown values (and their messages) have string
    conversions, [fetchData] returns; [downloadFile] has run for every
    template, in order, and each run went to exactly one list: a success
    put the final path in [downloadedFiles] (and its warning, when not
    null, in [fileSizeWarnings]), a failure put the logical file name in
    [skippedFiles]; the two lists together are as long as the template
    list. *)
Theorem fetchData_partition_when_printable :
  forall (options : Options) (w w0 : World) (dateStr : string),
    ensureOutputDir (outputDir (effective_config options)) w = (Normal tt, w0) ->
    format (effective_date options) (dateFormat (effective_config options))
    = Normal dateStr ->
    printable_transport (effective_transport options) ->
    printable_faults ->
    exists (results : list FileOutcome) (lists : DownloadResult) (w1 w' : World),
      fetchData options w = (Normal lists, w') /\
      processed (effective_config options) dateStr (effective_transport options)
        w0 (effective_templates options) results w1 /\
      length results = length (effective_templates options) /\
      downloadedFiles lists
      = downloaded_of (effective_config options)
          (zip (effective_templates options) results) /\
      skippedFiles lists = skipped_of (zip (effective_templates options) results) /\
      fileSizeWarnings lists = warnings_of (zip (effective_templates options) results) /\
      length (downloadedFiles lists) + length (skippedFiles lists)
      = length (effective_templates options).
Proof.
  intros options w w0 dateStr Hdir Hdate Htransport Hfaults.
  destruct (fetchData_run options w w0 dateStr Hdir Hdate)
    as [(results & w1 & w' & Hproc & E & _)|(e & w1 & Habort & _)].
  - pose proof (processed_length _ _ _ _ _ _ _ Hproc) as Hlen.
    eexists results, _, w1, w'. split; [exact E|]. simpl. repeat split; auto.
    rewrite partition_lengths, length_zip. lia.
  - destruct (aborted_not_printable _ _ _ _ _ _ _ Htransport Hfaults Habort).
Qed.

(** X22: the lists [fetchData] returns, whenever it returns: every
    template was processed, and the downloaded and the skipped list
    together are as long as the template list. *)
Theorem fetchData_returned_lists :
  forall (options : Options) (w : World) (lists : DownloadResult) (w' : World),
    fetchData options w = (Normal lists, w') ->
    exists (w0 : World) (dateStr : string) (results : list FileOutcome) (w1 : World),
      ensureOutputDir (outputDir (effective_config options)) w = (Normal tt, w0) /\
      format (effective_date options) (dateFormat (effective_config options))
      = Normal dateStr /\
      processed (effective_config options) dateStr (effective_transport options)
        w0 (effective_templates options) results w1 /\
      lists = mkDownloadResult
                (downloaded_of (effective_config options)
                   (zip (effective_templates options) results))
                (skipped_of (zip (effective_templates options) results))
                (warnings_of (zip (effective_templates options) results)) /\
      length (downloadedFiles lists) + length (skippedFiles lists)
      = length (effective_templates options).
Proof.
  intros options w lists w' H.
  destruct (ensureOutputDir (outputDir (effective_config options)) w)
    as [[[]|e0] w0] eqn:Hdir.
  - destruct (format (effective_date options)
                (dateFormat (effective_config options)))
      as [dateStr|e1] eqn:Hdate.
    + destruct (fetchData_run options w w0 dateStr Hdir Hdate)
        as [(results & w1 & w2 & Hproc & E & _)|(e & w1 & _ & E)];
        rewrite E in H; [|discriminate].
      injection H as <- <-.
      pose proof (processed_length _ _ _ _ _ _ _ Hproc) as Hlen.
      exists w0, dateStr, results, w1. repeat split; auto. simpl.
      rewrite partition_lengths, length_zip. lia.
    + assert (fetchData options w = (Throw e1, w0)) as E
        by (apply fetchData_throw_cases; auto).
      congruence.
  - assert (fetchData options w = (Throw e0, w0)) as E
      by (apply fetchData_throw_cases; auto).
    congruence.
Qed.

End WithEnvironment.

End FetcherMore.

(** ** The fetcher: further worked runs *)

Module FetcherMoreRuns.
Import Text Validator Num SizeCheck Fetcher FetcherSpec OrchestratorSpec.
Import FetcherFacts FetcherMore Samples MoreSamples.

Local Open Scope list_scope.

Lemma one_file_server_printable known :
  printable_transport (one_file_server known).
Proof.
  split; intros url n; unfold one_file_server;
    destruct (String.eqb url known); intros; simplify_eq/=.
Qed.

Lemma no_faults_printable : @printable_faults (sample_env no_faults).
Proof. intros c n e residue H. discriminate H. Qed.

Lemma downloadFile_throws_only_from_conversion_witness :
  exists error w1,
    @downloadFile_try (sample_env no_faults) "u" "out.csv" "out.csv.tmp"
      (of_Z 20) symbol_rejection (started "u" (world_with "out.csv.tmp" "stale"))
    = (Throw error, w1) /\
    thrownToString error = Throw symbolTypeError.
Proof.
  destruct (@downloadFile_throws_only_from_conversion (sample_env no_faults)
              "u" "out.csv" "out.csv.tmp" None (Some symbol_rejection)
              (world_with "out.csv.tmp" "stale") (Throw symbolTypeError)
              (snd (@downloadFile (sample_env no_faults) "u" "out.csv" "out.csv.tmp"
                      None (Some symbol_rejection)
                      (world_with "out.csv.tmp" "stale")))
              ltac:(vm_compute; reflexivity))
    as (error & w1 & Etry & [(Hshown & _)|(err & Hcalls & _)]).
  - exists error, w1. split; [exact Etry | exact Hshown].
  - apply (f_equal (@length _)) in Hcalls. rewrite length_app in Hcalls.
    replace (calls w1) with (@nil (FsCall * option Thrown)) in Hcalls
      by (revert Etry; vm_compute; now intros [= _ <-]).
    vm_compute in Hcalls. discriminate.
Defined.

Lemma downloadFile_returns_when_printable_witness :
  exists r w',
    @downloadFile (sample_env no_faults) "u" "out.csv" "out.csv.tmp" None
      (Some (one_file_server "u")) empty_world = (Normal r, w').
Proof.
  apply (@downloadFile_returns_when_printable (sample_env no_faults)
           "u" "out.csv" "out.csv.tmp" None (Some (one_file_server "u")) empty_world
           (one_file_server_printable "u") no_faults_printable).
Defined.

Lemma downloadFile_single_request_witness :
  requests (snd first_download) = 1.
Proof.
  apply (@downloadFile_single_request (sample_env no_faults)
           "u" "out.csv" "out.csv.tmp" None (Some csv_server) empty_world
           (fst first_download) (snd first_download)).
  apply surjective_pairing.
Defined.

Lemma downloadFile_success_commits_witness :
  exists content,
    files (snd first_download) !! "out.csv" = Some content /\
    isValid (validateCSVContent content) = true.
Proof.
  destruct (@downloadFile_success_commits (sample_env no_faults)
              "u" "out.csv" "out.csv.tmp" None (Some csv_server) empty_world
              (mkOutcome true None) (snd first_download)
              ltac:(vm_compute; reflexivity) eq_refl)
    as (content & _ & Hvalid & Hout & _).
  exists content. split; assumption.
Defined.

Lemma downloadFile_failure_keeps_files_witness :
  files (snd refused_download) !! "out.csv" = Some "old,data".
Proof.
  rewrite (@downloadFile_failure_keeps_files (sample_env no_faults)
             "u" "out.csv" "out.csv.tmp" None (Some not_found)
             (world_with "out.csv" "old,data")
             failure (snd refused_download)
             ltac:(vm_compute; reflexivity) eq_refl
             "out.csv" ltac:(discriminate)).
  reflexivity.
Defined.

Lemma downloadFile_invalid_content_witness :
  exists w' message,
    @downloadFile (sample_env no_faults) "u" "out.csv" "out.csv.tmp" None
      (Some html_server) (world_with "out.csv" "old,data")
    = (Normal failure, w') /\
    calls w' = [] /\ last (console w') = Some (LevelError, message).
Proof.
  destruct (@downloadFile_invalid_content (sample_env no_faults)
              "u" "out.csv" "out.csv.tmp" None (Some html_server)
              (world_with "out.csv" "old,data")
              (mkResponse true (of_Z 200) "OK" (Normal html_body)) html_body
              eq_refl eq_refl eq_refl ltac:(vm_compute; reflexivity))
    as (w' & message & E & _ & _ & Hcalls & Hlast & _).
  exists w', message. auto.
Defined.

Lemma downloadFile_first_download_no_warning_witness :
  exists r w', first_download = (Normal r, w') /\ outcome_warning r = None.
Proof.
  exists (mkOutcome true None), (snd first_download).
  assert (first_download = (Normal (mkOutcome true None), snd first_download)) as E
    by (vm_compute; reflexivity).
  split; [exact E|].
  exact (@downloadFile_first_download_no_warning (sample_env no_faults)
           "u" "out.csv" "out.csv.tmp" None (Some csv_server) empty_world
           (mkOutcome true None) (snd first_download)
           eq_refl eq_refl ltac:(discriminate) E).
Defined.

Lemma downloadFile_warning_is_size_check_witness :
  exists r w' content,
    second_download = (Normal r, w') /\
    outcome_warning r
    = warning (checkFileSizeChange sample_toFixed sample_numberToString
                 (of_Z (Z.of_nat (String.length content))) (of_Z 8) (of_Z 20)
                 "out.csv").
Proof.
  assert (exists r, second_download = (Normal r, snd second_download) /\
                    success r = true) as (r & E & Hs)
    by (eexists; split; vm_compute; reflexivity).
  destruct (@downloadFile_warning_is_size_check (sample_env no_faults)
              "u" "out.csv" "out.csv.tmp" None (Some csv_server)
              (world_with "out.csv" "old,data") r (snd second_download) "old,data"
              eq_refl ltac:(discriminate) (fun n => eq_refl) E Hs)
    as (content & _ & Hw).
  exists r, (snd second_download), content. split; [exact E | exact Hw].
Defined.

Lemma downloadFile_success_calls_witness :
  last (calls (snd first_download)) = Some (CRename "out.csv.tmp" "out.csv", None).
Proof.
  destruct (@downloadFile_success_calls (sample_env no_faults)
              "u" "out.csv" "out.csv.tmp" None (Some csv_server) empty_world
              (mkOutcome true None) (snd first_download)
              ltac:(vm_compute; reflexivity) eq_refl)
    as (content & probe & _ & Hcalls & _).
  rewrite Hcalls, !app_assoc. apply last_snoc.
Defined.

Lemma processTemplate_all_or_nothing_witness :
  exists lists' w',
    one_round = (Normal lists', w') /\
    (files w' !! "data/test1.csv" = files (world_with_dir "data") !! "data/test1.csv" \/
     files w' !! "data/test1.csv.tmp" = None).
Proof.
  assert (exists lists', one_round = (Normal lists', snd one_round)) as (lists' & E)
    by (eexists; vm_compute; reflexivity).
  exists lists', (snd one_round). split; [exact E|].
  destruct (@processTemplate_all_or_nothing (sample_env no_faults)
              sample_config "20240101" (one_file_server "http://host/test1.csv")
              (mkDownloadResult [] [] []) lists'
              (mkTemplate "http://host/test1.csv" "test1.csv")
              (world_with_dir "data") (snd one_round) E)
    as [(_ & _ & H)|(_ & _ & H & _)]; [left | right]; exact H.
Defined.

Lemma ensureOutputDir_spec_witness :
  exists w',
    @ensureOutputDir (sample_env no_faults) "data" empty_world = (Normal tt, w') /\
    dirs w' = {[ "data" ]} ∪ dirs empty_world.
Proof.
  destruct (@ensureOutputDir_spec (sample_env no_faults) "data" empty_world
              (fun n => eq_refl) (fun n => eq_refl))
    as (w' & E & _ & _ & _ & Hnew).
  exists w'. split; [exact E|]. apply Hnew. reflexivity.
Defined.

Lemma fetchData_one_request_per_template_witness :
  requests (snd two_templates_run) <= 2.
Proof.
  destruct (@fetchData_one_request_per_template (sample_env no_faults)
              two_templates (world_with_dir "data")
              (snd (@ensureOutputDir (sample_env no_faults) "data"
                      (world_with_dir "data")))
              "20240101" (fst two_templates_run) (snd two_templates_run)
              ltac:(vm_compute; reflexivity) eq_refl (surjective_pairing _))
    as (Hle & _).
  exact Hle.
Defined.

Lemma fetchData_warnings_bounded_witness :
  exists lists w',
    two_templates_run = (Normal lists, w') /\
    length (fileSizeWarnings lists) <= length (downloadedFiles lists).
Proof.
  assert (exists lists, two_templates_run = (Normal lists, snd two_templates_run))
    as (lists & E) by (eexists; vm_compute; reflexivity).
  exists lists, (snd two_templates_run). split; [exact E|].
  apply (@fetchData_warnings_bounded (sample_env no_faults)
           two_templates (world_with_dir "data") lists (snd two_templates_run) E).
Defined.

Lemma fetchData_empty_templates_witness :
  exists w',
    @fetchData (sample_env no_faults) no_templates (world_with_dir "data")
    = (Normal (mkDownloadResult [] [] []), w') /\
    requests w' = 0.
Proof.
  destruct (@fetchData_empty_templates (sample_env no_faults)
              no_templates (world_with_dir "data")
              (snd (@ensureOutputDir (sample_env no_faults) "data"
                      (world_with_dir "data")))
              "20240101" eq_refl ltac:(vm_compute; reflexivity) eq_refl)
    as (w' & E & Hr & _).
  exists w'. split; [exact E | exact Hr].
Defined.

Lemma fetchData_partition_when_printable_witness :
  exists (lists : DownloadResult) (w' : World),
    two_templates_run = (Normal lists, w') /\
    length (downloadedFiles lists) + length (skippedFiles lists) = 2.
Proof.
  destruct (@fetchData_partition_when_printable (sample_env no_faults) two_templates
              (world_with_dir "data")
              (snd (@ensureOutputDir (sample_env no_faults) "data"
                      (world_with_dir "data")))
              "20240101" ltac:(vm_compute; reflexivity) eq_refl
              (one_file_server_printable "http://host/test1.csv")
              no_faults_printable)
    as (results & lists & w1 & w' & E & _ & _ & _ & _ & _ & Hlen).
  exists lists, w'. split; [exact E | exact Hlen].
Defined.

Lemma fetchData_returned_lists_witness :
  exists lists,
    fst two_templates_run = Normal lists /\
    length (downloadedFiles lists) + length (skippedFiles lists) = 2.
Proof.
  assert (exists lists, two_templates_run = (Normal lists, snd two_templates_run))
    as (lists & E) by (eexists; vm_compute; reflexivity).
  exists lists. split; [now rewrite E|].
  destruct (@fetchData_returned_lists (sample_env no_faults) two_templates
              (world_with_dir "data") lists (snd two_templates_run) E)
    as (w0 & dateStr & results & w1 & _ & _ & _ & _ & Hlen).
  exact Hlen.
Defined.

End FetcherMoreRuns.
